(** * bf-caseforge-ui: the chat route [app/routes/index.tsx]

    A shallow embedding of the route's server-side [action] and of the
    state, event handlers and effects of the client-side [IndexPage]
    component, together with the properties of the specification that
    concern them.

    Conventions of the embedding.
    - A JavaScript string is the list of its UTF-16 code units, so that
      [length] and [trim] are the ones of the language.
    - A value that may be [undefined] or [null] is an [option]; both are
      falsy and the code never tells them apart.
    - The values of the hooks [useActionData], [useLocation] and
      [useNavigation] are inputs of a render: the router that produces them
      lives outside this file.
    - A state setter called inside a handler or an effect acts on the pending
      state, in call order; values read from the closure ([chatHistory],
      [location], [data], [sessionId]) are those of the render that created
      the closure.
    - [scrollToBottom] only moves the window; it and the effect that calls
      it when the transcript changes are left out. *)

From Stdlib Require Import ZArith NArith List String Ascii Bool Lia.
Import ListNotations.

Local Open Scope Z_scope.

(** ** JavaScript strings and truthiness *)

Module Js.

Definition jsstring := list N.

(** The code units of an ASCII literal. *)
Fixpoint js (s : string) : jsstring :=
  match s with
  | EmptyString => []
  | String c r => N_of_ascii c :: js r
  end.

Definition jsstring_eqb (a b : jsstring) : bool :=
  if list_eq_dec N.eq_dec a b then true else false.

(** [WhiteSpace] and [LineTerminator] of ECMAScript, the code units that
    [String.prototype.trim] strips. *)
Definition isWhiteSpace (c : N) : bool :=
  ((9 <=? c) && (c <=? 13) || (c =? 32) || (c =? 160) || (c =? 5760)
   || (8192 <=? c) && (c <=? 8202) || (c =? 8232) || (c =? 8233)
   || (c =? 8239) || (c =? 8287) || (c =? 12288) || (c =? 65279))%N.

Fixpoint trimStart (s : jsstring) : jsstring :=
  match s with
  | c :: r => if isWhiteSpace c then trimStart r else s
  | [] => []
  end.

Definition trimEnd (s : jsstring) : jsstring := rev (trimStart (rev s)).

Definition trim (s : jsstring) : jsstring := trimEnd (trimStart s).

(** [ToBoolean] on a string that may be missing: only [undefined], [null]
    and the empty string are falsy. *)
Definition truthy (o : option jsstring) : bool :=
  match o with
  | Some (_ :: _) => true
  | _ => false
  end.

(** [a || b] on such values. *)
Definition or_else (a b : option jsstring) : option jsstring :=
  if truthy a then a else b.

End Js.
Import Js.

(** ** The request handler [action] *)

Module Handler.

(** [ReturnedDataProps]. [answer] is typed [string] but is the cast of
    [response.output?.text], which may be undefined. *)
Record ReturnedDataProps := {
  message : option jsstring;
  answer : option jsstring;
  error : option jsstring;
  sessionId : option jsstring
}.

(** The two fields [action] reads from the posted form; [FormData.get]
    gives [null] for an absent field. *)
Record FormBody := {
  body_message : option jsstring;
  body_sessionId : option jsstring
}.

(** [process.env]. *)
Record Env := {
  KNOWLEDGE_BASE_ID : option jsstring;
  MODEL_ARN : option jsstring
}.

(** [RetrieveAndGenerateCommandInput], as far as the handler fills it. *)
Record TextInferenceConfig := {
  temperature : Z;
  topP : Z;
  maxTokens : Z;
  stopSequences : list jsstring
}.

Record GenerationConfiguration := {
  textPromptTemplate : jsstring;
  textInferenceConfig : TextInferenceConfig
}.

Record KnowledgeBaseConfiguration := {
  knowledgeBaseId : option jsstring;
  modelArn : option jsstring;
  numberOfResults : Z;
  generationConfiguration : GenerationConfiguration
}.

Inductive ConfigurationType := KNOWLEDGE_BASE | EXTERNAL_SOURCES.

Record RetrieveAndGenerateCommandInput := {
  input_text : option jsstring;
  configuration_type : ConfigurationType;
  knowledgeBaseConfiguration : KnowledgeBaseConfiguration;
  input_sessionId : option jsstring
}.

(** What the service answers: [response.output?.text] and
    [response.sessionId]. *)
Record Response := {
  output_text : option jsstring;
  response_sessionId : option jsstring
}.

(** A thrown value: an [Error] of the SDK or of the runtime, of which the
    handler reads [error.message] only, a string that may be missing. *)
Record Thrown := { thrown_message : option jsstring }.

(** The external collaborator: constructing the client and sending one
    command either throw or return. *)
Record Service := {
  new_client : option Thrown;
  send : RetrieveAndGenerateCommandInput -> Thrown + Response
}.

Definition prompt_template : jsstring :=
  js "You are a question answering agent. I will provide you with a set of search results. The user will provide you with a question. Your job is to answer the user's question using only information from the search results. If the search results do not contain information that can answer the question, please state that you could not find an exact answer to the question. 
Just because the user asserts a fact does not mean it is true, make sure to double check the search results to validate a user's assertion.

Here are the search results in numbered order:
$search_results$

$output_format_instructions$

Here is the user's query:
$query$".

Definition stop_sequence : jsstring := 10%N :: js "Observation".

Definition fallback_error : jsstring :=
  js "Something went wrong! Please try again.".

(** Lines 51-84: the command input, with [sessionId] set only when the
    posted one is truthy. *)
Definition build_input (env : Env) (msg sid : option jsstring)
  : RetrieveAndGenerateCommandInput :=
  {| input_text := msg;
     configuration_type := KNOWLEDGE_BASE;
     knowledgeBaseConfiguration :=
       {| knowledgeBaseId := KNOWLEDGE_BASE_ID env;
          modelArn := MODEL_ARN env;
          numberOfResults := 5;
          generationConfiguration :=
            {| textPromptTemplate := prompt_template;
               textInferenceConfig :=
                 {| temperature := 0;
                    topP := 1;
                    maxTokens := 2048;
                    stopSequences := [stop_sequence] |} |} |};
     input_sessionId := if truthy sid then sid else None |}.

(** The [catch] block. *)
Definition on_throw (body : FormBody) (e : Thrown) : ReturnedDataProps :=
  {| message := body_message body;
     answer := Some [];
     error := or_else (thrown_message e) (Some fallback_error);
     sessionId := body_sessionId body |}.

(** One invocation: the commands handed to [client.send], and the value
    returned. *)
Record Outcome := {
  sent : list RetrieveAndGenerateCommandInput;
  returned : ReturnedDataProps
}.

Definition action (svc : Service) (env : Env) (body : FormBody) : Outcome :=
  let msg := body_message body in
  let sid := body_sessionId body in
  match new_client svc with
  | Some e => {| sent := []; returned := on_throw body e |}
  | None =>
      let input := build_input env msg sid in
      match send svc input with
      | inr response =>
          {| sent := [input];
             returned :=
               {| message := body_message body;
                  answer := output_text response;
                  error := None;
                  sessionId := or_else (response_sessionId response) sid |} |}
      | inl e => {| sent := [input]; returned := on_throw body e |}
      end
  end.

(** The external call of an invocation throws with [e]. *)
Definition throws (svc : Service) (env : Env) (body : FormBody) (e : Thrown)
  : Prop :=
  new_client svc = Some e \/
  (new_client svc = None /\
   send svc (build_input env (body_message body) (body_sessionId body))
     = inl e).

(** The external call of an invocation returns [r]. *)
Definition succeeds (svc : Service) (env : Env) (body : FormBody)
  (r : Response) : Prop :=
  new_client svc = None /\
  send svc (build_input env (body_message body) (body_sessionId body))
    = inr r.

End Handler.

(** ** The chat view [IndexPage] *)

Module View.

Inductive Role := user | assistant.

(** [ChatHistoryProps]: one turn of the transcript. *)
Record ChatHistoryProps := {
  content : jsstring;
  role : Role;
  error : option bool
}.

(** A JavaScript number, as far as the row computation can produce one. *)
Inductive jsnum := Num (z : Z) | PosInf | NegInf | NaN.

(** The textarea behind [inputRef]. *)
Record Textarea := {
  value : jsstring;
  rows : jsnum;
  scrollTop : Z;
  focused : bool
}.

(** [location.state]: the transcript key and whatever else the entry holds
    (the spread [...location.state] copies it). *)
Record LocationState := {
  state_chatHistory : option (list ChatHistoryProps);
  state_rest : list (jsstring * jsstring)
}.

Inductive NavigationState := idle | submitting | loading.

(** The hook values of one render. *)
Record Hooks := {
  data : option Handler.ReturnedDataProps;
  location_state : option LocationState;
  navigation_state : NavigationState
}.

(** Which effect dependencies differ from the previous render ([Object.is]
    on the hook values). On mount all of them do. *)
Record Changed := {
  navigation_changed : bool;
  data_changed : bool;
  location_changed : bool
}.

(** The component's state, the DOM node it owns, and the calls it has made
    to the router ([navigate] and [submit]), oldest first. *)
Record State := {
  chatHistory : list ChatHistoryProps;
  sessionId : option jsstring;
  inputRef : option Textarea;
  navigated : list LocationState;
  submitted : list Handler.FormBody
}.

Definition setChatHistory (h : list ChatHistoryProps) (st : State) : State :=
  {| chatHistory := h; sessionId := sessionId st; inputRef := inputRef st;
     navigated := navigated st; submitted := submitted st |}.

Definition setSessionId (s : option jsstring) (st : State) : State :=
  {| chatHistory := chatHistory st; sessionId := s; inputRef := inputRef st;
     navigated := navigated st; submitted := submitted st |}.

Definition setInput (t : option Textarea) (st : State) : State :=
  {| chatHistory := chatHistory st; sessionId := sessionId st; inputRef := t;
     navigated := navigated st; submitted := submitted st |}.

(** [navigate("/", { state })]. *)
Definition navigate (s : LocationState) (st : State) : State :=
  {| chatHistory := chatHistory st; sessionId := sessionId st;
     inputRef := inputRef st; navigated := navigated st ++ [s];
     submitted := submitted st |}.

(** [submit(formRef.current, { replace: true })]. *)
Definition submit (b : Handler.FormBody) (st : State) : State :=
  {| chatHistory := chatHistory st; sessionId := sessionId st;
     inputRef := inputRef st; navigated := navigated st;
     submitted := submitted st ++ [b] |}.

Definition initial : State :=
  {| chatHistory := []; sessionId := None;
     inputRef := Some {| value := []; rows := Num 1; scrollTop := 0;
                         focused := false |};
     navigated := []; submitted := [] |}.

(** *** The auto-growing textarea *)

Definition minTextareaRows : Z := 1.
Definition maxTextareaRows : Z := 3.

(** What the browser reports during one change event, read after the rows
    were reset to the minimum; [target_scrollHeight] is
    [event.target.scrollHeight], read once the rows are at the maximum. A
    [parseInt] result is an integer or NaN ([None]); computed lengths are
    never negative zero. *)
Record Measured := {
  lineHeight : option Z;
  paddingTop : option Z;
  paddingBottom : option Z;
  scrollHeight : Z;
  target_scrollHeight : Z
}.

Definition minus (a b : option Z) : option Z :=
  match a, b with
  | Some x, Some y => Some (x - y)
  | _, _ => None
  end.

(** [Math.floor(a / b)] on integers or NaN. The quotient of two integers
    below 2^53 is floored exactly. *)
Definition floor_div (a b : option Z) : jsnum :=
  match a, b with
  | Some x, Some y =>
      if y =? 0 then
        if 0 <? x then PosInf else if x <? 0 then NegInf else NaN
      else Num (x / y)
  | _, _ => NaN
  end.

(** [a >= k] for an integer [k]. *)
Definition geb (a : jsnum) (k : Z) : bool :=
  match a with
  | Num x => k <=? x
  | PosInf => true
  | NegInf | NaN => false
  end.

Definition currentRows (m : Measured) : jsnum :=
  let scrollHeight' :=
    minus (minus (Some (scrollHeight m)) (paddingTop m)) (paddingBottom m) in
  floor_div scrollHeight' (lineHeight m).

Definition handleTextareaChange (m : Measured) (st : State) : State :=
  match inputRef st with
  | None => st
  | Some t =>
      let reset := {| value := value t; rows := Num minTextareaRows;
                      scrollTop := scrollTop t; focused := focused t |} in
      if geb (currentRows m) maxTextareaRows then
        setInput (Some {| value := value reset; rows := Num maxTextareaRows;
                          scrollTop := target_scrollHeight m;
                          focused := focused reset |}) st
      else
        setInput (Some {| value := value reset; rows := currentRows m;
                          scrollTop := scrollTop reset;
                          focused := focused reset |}) st
  end.

(** *** Submission *)

Definition pushChatHistory (d : ChatHistoryProps) (st : State) : State :=
  setChatHistory (chatHistory st ++ [d]) st.

Definition user_turn (c : jsstring) : ChatHistoryProps :=
  {| content := c; role := user; error := None |}.

Definition saveUserMessage (c : jsstring) (st : State) : State :=
  pushChatHistory (user_turn c) st.

(** [onSubmit] of the form; [message] is the form's [message] field, the
    textarea's value. *)
Definition handleFormSubmit (message : jsstring) (st : State) : State :=
  saveUserMessage message st.

(** The form serialised by [submit]: the textarea and the hidden
    [sessionId] input, whose value is [sessionId || ""]. *)
Definition form_body (message : jsstring) (sid : option jsstring)
  : Handler.FormBody :=
  {| Handler.body_message := Some message;
     Handler.body_sessionId := or_else sid (Some []) |}.

Definition Enter : jsstring := js "Enter".

(** [onKeyDown] of the textarea; [v] is [event.target.value] and [sid] the
    rendered session identifier. *)
Definition submitFormOnEnter (key : jsstring) (shiftKey : bool)
  (v : jsstring) (sid : option jsstring) (st : State) : State :=
  if jsstring_eqb key Enter && negb shiftKey
     && (2 <? Z.of_nat (List.length (trim v)))
  then submit (form_body v sid) (saveUserMessage v st)
  else st.

(** *** Effects, in the order the component declares them *)

(** Effect on [navigation.state]: clear the input while submitting, focus it
    otherwise. *)
Definition inputEffect (nav : NavigationState) (st : State) : State :=
  match inputRef st with
  | None => st
  | Some t =>
      match nav with
      | submitting =>
          setInput (Some {| value := []; rows := Num 1;
                            scrollTop := scrollTop t;
                            focused := focused t |}) st
      | _ =>
          setInput (Some {| value := value t; rows := rows t;
                            scrollTop := scrollTop t; focused := true |}) st
      end
  end.

Definition error_turn (e : jsstring) : ChatHistoryProps :=
  {| content := e; role := assistant; error := Some true |}.

Definition answer_turn (a : jsstring) : ChatHistoryProps :=
  {| content := a; role := assistant; error := None |}.

(** [data?.f]. *)
Definition field (f : Handler.ReturnedDataProps -> option jsstring)
  (d : option Handler.ReturnedDataProps) : option jsstring :=
  match d with
  | Some r => f r
  | None => None
  end.

(** [{ ...location.state, chatHistory: h }]. *)
Definition with_chatHistory (loc : option LocationState)
  (h : list ChatHistoryProps) : LocationState :=
  {| state_chatHistory := Some h;
     state_rest := match loc with
                   | Some s => state_rest s
                   | None => []
                   end |}.

(** Effect on [data]: [d] and [loc] are the rendered hook values and [shown]
    the rendered [chatHistory]. *)
Definition dataEffect (d : option Handler.ReturnedDataProps)
  (loc : option LocationState) (shown : list ChatHistoryProps)
  (st : State) : State :=
  match field Handler.error d with
  | Some ((_ :: _) as e) => pushChatHistory (error_turn e) st
  | _ =>
      match field Handler.answer d with
      | Some ((_ :: _) as a) =>
          let newAnswer := answer_turn a in
          navigate (with_chatHistory loc (shown ++ [newAnswer]))
                   (pushChatHistory newAnswer st)
      | _ => st
      end
  end.

(** Effect on [location]: clear the transcript when there is no state. *)
Definition clearEffect (loc : option LocationState) (st : State) : State :=
  match loc with
  | None => setChatHistory [] st
  | Some _ => st
  end.

(** [setChat], run by the second effect on [location]. *)
Definition setChat (loc : option LocationState) (st : State) : State :=
  match loc with
  | Some s =>
      match state_chatHistory s with
      | Some h => setChatHistory h st
      | None => st
      end
  | None => st
  end.

(** Effect on [data?.sessionId] and [sessionId]; [sid] is the rendered
    session identifier. Its dependencies are compared by value, and with
    unchanged dependencies its condition is false, so it is run at every
    commit. *)
Definition sessionEffect (d : option Handler.ReturnedDataProps)
  (sid : option jsstring) (st : State) : State :=
  match field Handler.sessionId d with
  | Some ((_ :: _) as s) =>
      match sid with
      | Some s' => if jsstring_eqb s s' then st else setSessionId (Some s) st
      | None => setSessionId (Some s) st
      end
  | _ => st
  end.

(** One commit: the effects whose dependencies changed, in source order,
    all closing over the state [st] that was rendered. *)
Definition commit (h : Hooks) (c : Changed) (st : State) : State :=
  let s1 := if navigation_changed c
            then inputEffect (navigation_state h) st else st in
  let s2 := if data_changed c
            then dataEffect (data h) (location_state h) (chatHistory st) s1
            else s1 in
  let s3 := if location_changed c
            then clearEffect (location_state h) s2 else s2 in
  let s4 := if location_changed c
            then setChat (location_state h) s3 else s3 in
  sessionEffect (data h) (sessionId st) s4.

(** *** Events *)

Inductive Event :=
| typed (v : jsstring) (m : Measured)
| keydown (key : jsstring) (shiftKey : bool)
| submit_event
| rendered (h : Hooks) (c : Changed).

(** [typed]: the user edits the textarea, [onChange] fires.
    [keydown]: [onKeyDown] on the textarea.
    [submit_event]: the submit button fires [onSubmit]; the [Form] component
    then submits the form itself.
    [rendered]: the hook values changed and the effects ran. *)
Definition step (st : State) (e : Event) : State :=
  match e with
  | typed v m =>
      match inputRef st with
      | None => st
      | Some t =>
          handleTextareaChange m
            (setInput (Some {| value := v; rows := rows t;
                               scrollTop := scrollTop t;
                               focused := focused t |}) st)
      end
  | keydown key shiftKey =>
      match inputRef st with
      | None => st
      | Some t => submitFormOnEnter key shiftKey (value t) (sessionId st) st
      end
  | submit_event =>
      match inputRef st with
      | None => st
      | Some t =>
          submit (form_body (value t) (sessionId st))
                 (handleFormSubmit (value t) st)
      end
  | rendered h c => commit h c st
  end.

Definition run (st : State) (es : list Event) : State := fold_left step es st.

(** The two ways of submitting the message in the textarea. *)
Inductive SubmitPath := by_click | by_enter.

Definition submission (p : SubmitPath) : Event :=
  match p with
  | by_click => submit_event
  | by_enter => keydown Enter false
  end.

(** The router reports the submission: only [navigation.state] changes. *)
Definition now_submitting (h : Hooks) : Event :=
  rendered {| data := data h; location_state := location_state h;
              navigation_state := submitting |}
           {| navigation_changed := true; data_changed := false;
              location_changed := false |}.

(** A handler result arrives while the location stays as it is: [data]
    changes, the submission is over. *)
Definition resolved (r : Handler.ReturnedDataProps)
  (loc : option LocationState) : Event :=
  rendered {| data := Some r; location_state := loc;
              navigation_state := idle |}
           {| navigation_changed := true; data_changed := true;
              location_changed := false |}.

(** The view is shown for a history entry: first load, back or forward. *)
Definition loaded (loc : option LocationState) : Event :=
  rendered {| data := None; location_state := loc;
              navigation_state := idle |}
           {| navigation_changed := true; data_changed := true;
              location_changed := true |}.

Definition is_error_turn (t : ChatHistoryProps) : bool :=
  match error t with
  | Some true => true
  | _ => false
  end.

End View.

(** ** Runs fed by the router *)

Module Router.

Import View.

(** The only history entries of this route are the ones it pushed itself:
    an event is admissible in a state when the navigation state it shows is
    absent or one already handed to [navigate]. *)
Definition admissible (st : State) (e : Event) : Prop :=
  match e with
  | rendered h _ =>
      match location_state h with
      | Some s => In s (navigated st)
      | None => True
      end
  | _ => True
  end.

Fixpoint admissible_run (st : State) (es : list Event) : Prop :=
  match es with
  | [] => True
  | e :: r => admissible st e /\ admissible_run (step st e) r
  end.

(** A turn that is flagged as an error speaks for the assistant. *)
Definition flag_fits_role (t : ChatHistoryProps) : bool :=
  match error t, role t with
  | Some true, user => false
  | _, _ => true
  end.

(** The invariant: every turn shown and every turn written to navigation
    state has an error flag that fits its role. *)
Definition fits (t : ChatHistoryProps) : Prop :=
  flag_fits_role t = true.

Definition flags_fit (st : State) : Prop :=
  Forall fits (chatHistory st)
  /\ Forall (fun s => forall l, state_chatHistory s = Some l ->
                                Forall fits l)
       (navigated st).

(** The contents of the user turns of a transcript, as the form posts
    them. *)
Definition is_user_turn (t : ChatHistoryProps) : bool :=
  match role t with
  | user => true
  | assistant => false
  end.

Definition user_contents (l : list ChatHistoryProps)
  : list (option jsstring) :=
  map (fun t => Some (content t)) (filter is_user_turn l).

(** How the router of the framework feeds the view. A form submission ends
    with one render that brings the handler's result and the location of
    that submission, a new one whose state is null, since the form passes
    none. *)
Definition completed (r : Handler.ReturnedDataProps) : Event :=
  rendered {| data := Some r; location_state := None;
              navigation_state := idle |}
           {| navigation_changed := true; data_changed := true;
              location_changed := true |}.





(** A later result keeps the session [s] when it carries no session
    identifier, an empty one, or [s] itself. *)
Definition keeps_session (s : jsstring) (e : Event) : Prop :=
  forall h c s',
    e = rendered h c ->
    field Handler.sessionId (data h) = Some s' ->
    s' = [] \/ s' = s.

End Router.

(** ** The [Message] component *)

Module Message.

(** A retrieved reference, as far as it is displayed: [content?.text] and
    [location?.s3Location?.uri]. *)
Record RetrievedReference := {
  reference_text : option jsstring;
  reference_uri : option jsstring
}.

Record Citation := {
  retrievedReferences : option (list RetrievedReference)
}.

(** [MessageProps]; [Role] is the type of the turns' roles. *)
Record MessageProps := {
  content : jsstring;
  citations : option (list Citation);
  role : option View.Role;
  error : option bool;
  thinking : option bool
}.

(** [x || ""]. *)
Definition or_empty (o : option jsstring) : jsstring :=
  match o with
  | Some (c :: r) => c :: r
  | _ => []
  end.

(** [citation.retrievedReferences?.at(0)]. *)
Definition at0 (c : Citation) : option RetrievedReference :=
  match retrievedReferences c with
  | Some (r :: _) => Some r
  | _ => None
  end.

(** [o?.f]. *)
Definition opt {A} (f : A -> option jsstring) (o : option A)
  : option jsstring :=
  match o with
  | Some a => f a
  | None => None
  end.

(** What one [RenderedCitation] shows: the number after "Citation", the
    file, the content when expanded, and the text of its button. *)
Record CitationView := {
  number : Z;
  file : jsstring;
  shown_content : option jsstring;
  citation_button : jsstring
}.

Definition RenderedCitation (citation : Citation) (index : nat)
  (isExpanded : bool) : CitationView :=
  let content := or_empty (opt reference_text (at0 citation)) in
  let file := or_empty (opt reference_uri (at0 citation)) in
  {| number := Z.of_nat index + 1;
     file := file;
     shown_content := if isExpanded then Some content else None;
     citation_button :=
       if isExpanded then js "Hide content" else js "Show content" |}.

(** [citations.map((citation, index) => ...)], from index [i] on; [open]
    tells which citations are expanded. *)
Fixpoint renderCitations_from (i : nat) (open : nat -> bool)
  (citations : list Citation) : list CitationView :=
  match citations with
  | [] => []
  | c :: r => RenderedCitation c i (open i) :: renderCitations_from (S i) open r
  end.

Definition renderCitations (open : nat -> bool) (citations : list Citation)
  : list CitationView :=
  renderCitations_from 0 open citations.

(** The marker insertion is commented out: the content is returned as it
    is. *)
Definition renderContent (content : jsstring)
  (citations : option (list Citation)) : jsstring :=
  content.

(** The state of a mounted message: its own [isExpanded] and the one of
    each mounted [RenderedCitation]. *)
Record State := {
  isExpanded : bool;
  citation_isExpanded : nat -> bool
}.

Definition mounted : State :=
  {| isExpanded := false; citation_isExpanded := fun _ => false |}.

Inductive Body :=
| Bubbles
| Response (markdown : jsstring) (toggle : option jsstring)
    (list_of_citations : list CitationView).

(** What a message shows: the role in its class name, the two conditional
    classes of the wrapper, and the body. *)
Record MessageView := {
  message_role : View.Role;
  justify_end : bool;
  text_error : bool;
  body : Body
}.

Definition is_user (r : View.Role) : bool :=
  match r with
  | View.user => true
  | View.assistant => false
  end.

Definition is_true (o : option bool) : bool :=
  match o with
  | Some true => true
  | _ => false
  end.

(** The condition under which the citations button is rendered. *)
Definition has_toggle (r : View.Role) (citations : option (list Citation))
  : bool :=
  negb (is_user r) &&
  match citations with
  | Some (c :: _) =>
      match retrievedReferences c with
      | Some (_ :: _) => true
      | _ => false
      end
  | _ => false
  end.

Definition Message (p : MessageProps) (s : State) : MessageView :=
  let role := match role p with Some r => r | None => View.user end in
  {| message_role := role;
     justify_end := is_user role;
     text_error := is_true (error p);
     body :=
       if is_true (thinking p) then Bubbles
       else
         Response
           (renderContent (content p) (citations p))
           (if has_toggle role (citations p)
            then Some (if isExpanded s then js "Hide citations"
                       else js "Show citations")
            else None)
           (if negb (is_user role) then
              match citations p with
              | Some cs =>
                  if isExpanded s
                  then renderCitations (citation_isExpanded s) cs
                  else []
              | None => []
              end
            else []) |}.

(** Clicks. A button that is not rendered cannot be clicked. Collapsing
    unmounts the citations, so that they come back collapsed. *)
Inductive Click := on_toggle | on_citation (i : nat).

Definition shows_citation (p : MessageProps) (s : State) (i : nat) : bool :=
  match body (Message p s) with
  | Response _ _ l => Nat.ltb i (List.length l)
  | Bubbles => false
  end.

Definition shows_toggle (p : MessageProps) (s : State) : bool :=
  match body (Message p s) with
  | Response _ (Some _) _ => true
  | _ => false
  end.

Definition click (p : MessageProps) (s : State) (c : Click) : State :=
  match c with
  | on_toggle =>
      if shows_toggle p s
      then {| isExpanded := negb (isExpanded s);
              citation_isExpanded := fun _ => false |}
      else s
  | on_citation i =>
      if shows_citation p s i
      then {| isExpanded := isExpanded s;
              citation_isExpanded :=
                fun j => if Nat.eqb i j
                         then negb (citation_isExpanded s j)
                         else citation_isExpanded s j |}
      else s
  end.

Definition clicks (p : MessageProps) (cs : list Click) : State :=
  fold_left (click p) cs mounted.

(** The role a message is shown with. *)
Definition effective_role (p : MessageProps) : View.Role :=
  match role p with
  | Some r => r
  | None => View.user
  end.

(** The citations can only be expanded through their button. *)
Definition expandable (p : MessageProps) (s : State) : Prop :=
  isExpanded s = true ->
  has_toggle (effective_role p) (citations p) = true
  /\ is_true (thinking p) = false.

End Message.

(** ** What [IndexPage] renders *)

Module Page.

(** The chat container and the form, as far as they depend on the state. *)
Record PageView := {
  intro : bool;
  messages : list Message.MessageProps;
  textarea_disabled : bool;
  button_disabled : bool;
  hidden_sessionId : jsstring
}.

(** The props of the message of one turn. *)
Definition turn_props (c : View.ChatHistoryProps) : Message.MessageProps :=
  {| Message.content := View.content c;
     Message.citations := None;
     Message.role := Some (View.role c);
     Message.error := View.error c;
     Message.thinking := None |}.

(** [<Message thinking role="assistant" content="" />]. *)
Definition thinking_props : Message.MessageProps :=
  {| Message.content := [];
     Message.citations := None;
     Message.role := Some View.assistant;
     Message.error := None;
     Message.thinking := Some true |}.

Definition isSubmitting (nav : View.NavigationState) : bool :=
  match nav with
  | View.submitting => true
  | _ => false
  end.

Definition render (st : View.State) (nav : View.NavigationState) : PageView :=
  let chatHistory := View.chatHistory st in
  {| intro := Nat.eqb (List.length chatHistory) 0;
     messages :=
       if Nat.ltb 0 (List.length chatHistory)
       then map turn_props chatHistory
            ++ (if isSubmitting nav then [thinking_props] else [])
       else [];
     textarea_disabled := isSubmitting nav;
     button_disabled := isSubmitting nav;
     hidden_sessionId := Message.or_empty (View.sessionId st) |}.

(** Every message of the page, as shown when freshly mounted. *)
Definition shown_messages (st : View.State) (nav : View.NavigationState)
  : list Message.MessageView :=
  map (fun p => Message.Message p Message.mounted) (messages (render st nav)).

End Page.

(** ** Sample collaborators, measurements and hook values *)

Definition failing_service (m : option jsstring) : Handler.Service :=
  {| Handler.new_client := None;
     Handler.send := fun _ => inl {| Handler.thrown_message := m |} |}.

Definition answering_service (a sid : option jsstring) : Handler.Service :=
  {| Handler.new_client := None;
     Handler.send := fun _ => inr {| Handler.output_text := a;
                                     Handler.response_sessionId := sid |} |}.

Definition no_env : Handler.Env :=
  {| Handler.KNOWLEDGE_BASE_ID := None; Handler.MODEL_ARN := None |}.

Definition one_line : View.Measured :=
  {| View.lineHeight := Some 24; View.paddingTop := Some 12;
     View.paddingBottom := Some 12; View.scrollHeight := 48;
     View.target_scrollHeight := 48 |}.

Definition no_hooks : View.Hooks :=
  {| View.data := None; View.location_state := None;
     View.navigation_state := View.idle |}.

(** * Properties *)

(** ** Truthiness *)

Section Truthiness.

Variable o : option jsstring.

Lemma truthy_Some : truthy o = true <-> exists s, o = Some s /\ s <> [].
Proof.
  destruct o as [[|c r]|]; simpl; split; intro H;
    try discriminate; try reflexivity.
  - destruct H as (s & E & N); inversion E; subst; now elim N.
  - exists (c :: r); split; [reflexivity | discriminate].
  - destruct H as (s & E & _); discriminate.
Qed.

Lemma truthy_false : truthy o = false <-> o = None \/ o = Some [].
Proof.
  destruct o as [[|c r]|]; simpl; split; intro H;
    try discriminate; try reflexivity; auto.
  destruct H as [H|H]; discriminate.
Qed.

Lemma or_else_truthy (b : option jsstring) :
  truthy o = true -> or_else o b = o.
Proof. unfold or_else; now intros ->. Qed.

Lemma or_else_falsy (b : option jsstring) :
  truthy o = false -> or_else o b = b.
Proof. unfold or_else; now intros ->. Qed.

End Truthiness.

Lemma jsstring_eqb_eq (a b : jsstring) : jsstring_eqb a b = true <-> a = b.
Proof.
  unfold jsstring_eqb; destruct (list_eq_dec N.eq_dec a b); split;
    congruence.
Qed.

(** ** The request handler *)

Section HandlerFacts.

Import Handler.

Variables (svc : Service) (env : Env) (body : FormBody).

Lemma action_throws (e : Thrown) :
  throws svc env body e -> returned (action svc env body) = on_throw body e.
Proof.
  unfold throws, action; intros [H | [H1 H2]].
  - now rewrite H.
  - now rewrite H1, H2.
Qed.

Lemma action_succeeds (r : Response) :
  succeeds svc env body r ->
  returned (action svc env body) =
    {| message := body_message body;
       answer := output_text r;
       error := None;
       sessionId := or_else (response_sessionId r) (body_sessionId body) |}.
Proof.
  unfold succeeds, action; intros [H1 H2]; now rewrite H1, H2.
Qed.

Lemma action_sent :
  sent (action svc env body) = [] \/
  sent (action svc env body) =
    [build_input env (body_message body) (body_sessionId body)].
Proof.
  unfold action; destruct (new_client svc); [now left | right].
  now destruct (send svc _).
Qed.

(** Every invocation ends in exactly one of the two outcomes. *)
Lemma action_total :
  (exists e, throws svc env body e) \/ (exists r, succeeds svc env body r).
Proof.
  unfold throws, succeeds.
  destruct (new_client svc) as [e|] eqn:C; [left; exists e; now left |].
  destruct (send svc (build_input env (body_message body)
                        (body_sessionId body))) as [e|r] eqn:S.
  - left; exists e; right; now split.
  - right; exists r; now split.
Qed.

End HandlerFacts.

(** The command carries exactly a truthy posted session identifier. *)
Lemma build_input_sessionId (env : Handler.Env) (msg sid : option jsstring) :
  forall s, Handler.input_sessionId (Handler.build_input env msg sid) = Some s
            <-> sid = Some s /\ s <> [].
Proof.
  intro s; simpl; destruct sid as [[|c r]|]; simpl; split.
  - discriminate.
  - intros [E N]; inversion E; subst; now elim N.
  - intro E; inversion E; split; [reflexivity | discriminate].
  - now intros [E _].
  - discriminate.
  - intros [E _]; discriminate.
Qed.

(** C5. Every command handed to the service carries temperature 0, topP 1,
    maxTokens 2048, one stop sequence, the fixed prompt template and five
    retrieved passages, and it carries a session identifier exactly when the
    request supplied a non-empty one, which is then the one carried. At most
    one command is sent, and exactly one once the client is constructed. *)
Theorem outbound_request_fixed :
  forall (svc : Handler.Service) (env : Handler.Env) (body : Handler.FormBody),
    let out := Handler.action svc env body in
    Forall
      (fun i =>
         let kb := Handler.knowledgeBaseConfiguration i in
         let gen := Handler.generationConfiguration kb in
         let inf := Handler.textInferenceConfig gen in
         Handler.temperature inf = 0
         /\ Handler.topP inf = 1
         /\ Handler.maxTokens inf = 2048
         /\ Handler.stopSequences inf = [Handler.stop_sequence]
         /\ List.length (Handler.stopSequences inf) = 1%nat
         /\ Handler.textPromptTemplate gen = Handler.prompt_template
         /\ Handler.numberOfResults kb = 5
         /\ Handler.input_text i = Handler.body_message body
         /\ (forall s, Handler.input_sessionId i = Some s <->
                       Handler.body_sessionId body = Some s /\ s <> []))
      (Handler.sent out)
    /\ (List.length (Handler.sent out) <= 1)%nat
    /\ (Handler.new_client svc = None ->
        List.length (Handler.sent out) = 1%nat).
Proof.
  intros svc env body out; subst out; split; [| split].
  - destruct (action_sent svc env body) as [-> | ->]; constructor;
      [| constructor].
    cbv beta zeta.
    repeat (split; [reflexivity |]).
    apply build_input_sessionId.
  - destruct (action_sent svc env body) as [-> | ->]; simpl; lia.
  - intro C; unfold Handler.action; rewrite C.
    now destruct (Handler.send svc _).
Qed.

(** C10. When the external call throws, the handler returns the empty
    answer, the submitted message, and as error the thrown message if that
    is a non-empty string and the fallback text otherwise; the error is
    never empty. *)
Theorem thrown_result_shape :
  forall (svc : Handler.Service) (env : Handler.Env) (body : Handler.FormBody)
         (e : Handler.Thrown),
    Handler.throws svc env body e ->
    let r := Handler.returned (Handler.action svc env body) in
    Handler.answer r = Some []
    /\ Handler.message r = Handler.body_message body
    /\ (forall m, Handler.thrown_message e = Some m -> m <> [] ->
                  Handler.error r = Some m)
    /\ (Handler.thrown_message e = None \/ Handler.thrown_message e = Some [] ->
        Handler.error r = Some Handler.fallback_error)
    /\ Handler.fallback_error =
         js "Something went wrong! Please try again."
    /\ exists m, Handler.error r = Some m /\ m <> [].
Proof.
  intros svc env body e T r; subst r.
  rewrite (action_throws svc env body e T); simpl.
  repeat split.
  - intros m E N; rewrite <- E; apply or_else_truthy, truthy_Some; eauto.
  - intro F; apply or_else_falsy, truthy_false, F.
  - destruct (Handler.thrown_message e) as [[|c m]|]; simpl;
      eexists; (split; [reflexivity | discriminate]).
Qed.

Lemma thrown_result_shape_witness :
  let svc := failing_service (Some (js "Access denied")) in
  let body := View.form_body (js "What is the statute of limitations?")
                             (Some (js "abc123")) in
  Handler.returned (Handler.action svc no_env body) =
    {| Handler.message := Some (js "What is the statute of limitations?");
       Handler.answer := Some [];
       Handler.error := Some (js "Access denied");
       Handler.sessionId := Some (js "abc123") |}
  /\ exists m, Handler.error (Handler.returned (Handler.action svc no_env body))
               = Some m /\ m <> [].
Proof.
  intros svc body; split; [reflexivity |].
  refine (proj2 (proj2 (proj2 (proj2 (proj2
    (thrown_result_shape svc no_env body
       {| Handler.thrown_message := Some (js "Access denied") |} _)))))).
  right; split; reflexivity.
Defined.

(** ** The chat view: what each handler and effect leaves alone *)

Ltac case_match :=
  match goal with
  | |- context [match ?x with _ => _ end] => destruct x eqn:?
  end.

Ltac effect_cases :=
  unfold View.inputEffect, View.dataEffect, View.clearEffect, View.setChat,
    View.sessionEffect, View.handleTextareaChange, View.submitFormOnEnter,
    View.handleFormSubmit, View.saveUserMessage, View.pushChatHistory;
  repeat case_match; simpl; try reflexivity; try congruence.

Section ViewFrames.

Import View.

Variable st : State.

Lemma inputEffect_frame (nav : NavigationState) :
  let st' := inputEffect nav st in
  chatHistory st' = chatHistory st /\ sessionId st' = sessionId st
  /\ navigated st' = navigated st /\ submitted st' = submitted st.
Proof. effect_cases; auto. Qed.

Lemma dataEffect_frame d loc shown :
  let st' := dataEffect d loc shown st in
  sessionId st' = sessionId st /\ inputRef st' = inputRef st
  /\ submitted st' = submitted st.
Proof. effect_cases; auto. Qed.

Lemma clearEffect_frame loc :
  let st' := clearEffect loc st in
  sessionId st' = sessionId st /\ inputRef st' = inputRef st
  /\ navigated st' = navigated st /\ submitted st' = submitted st.
Proof. effect_cases; auto. Qed.

Lemma setChat_frame loc :
  let st' := setChat loc st in
  sessionId st' = sessionId st /\ inputRef st' = inputRef st
  /\ navigated st' = navigated st /\ submitted st' = submitted st.
Proof. effect_cases; auto. Qed.

Lemma sessionEffect_frame d sid :
  let st' := sessionEffect d sid st in
  chatHistory st' = chatHistory st /\ inputRef st' = inputRef st
  /\ navigated st' = navigated st /\ submitted st' = submitted st.
Proof. effect_cases; auto. Qed.

Lemma handleTextareaChange_frame m :
  let st' := handleTextareaChange m st in
  chatHistory st' = chatHistory st /\ sessionId st' = sessionId st
  /\ navigated st' = navigated st /\ submitted st' = submitted st.
Proof. effect_cases; auto. Qed.

Lemma submitFormOnEnter_frame key shiftKey v sid :
  let st' := submitFormOnEnter key shiftKey v sid st in
  sessionId st' = sessionId st /\ inputRef st' = inputRef st
  /\ navigated st' = navigated st.
Proof. effect_cases; auto. Qed.

(** The session effect replaces the identifier only by a truthy one that
    differs from the rendered one. *)
Lemma sessionEffect_sessionId d sid :
  sessionId (sessionEffect d sid st) = sessionId st
  \/ exists s, field Handler.sessionId d = Some s /\ s <> []
               /\ Some s <> sid
               /\ sessionId (sessionEffect d sid st) = Some s.
Proof.
  unfold sessionEffect.
  destruct (field Handler.sessionId d) as [[|c s]|]; auto.
  destruct sid as [s'|].
  - destruct (jsstring_eqb (c :: s) s') eqn:E; auto.
    right; exists (c :: s); repeat split; try discriminate.
    intro H; inversion H; subst.
    assert (jsstring_eqb (c :: s) (c :: s) = true)
      by now apply jsstring_eqb_eq.
    congruence.
  - right; exists (c :: s); repeat split; discriminate.
Qed.

(** When the result carries a truthy identifier, it is the stored one after
    the effect. *)
Lemma sessionEffect_adopts d s :
  field Handler.sessionId d = Some s -> s <> [] ->
  sessionId (sessionEffect d (sessionId st) st) = Some s.
Proof.
  intros E N; unfold sessionEffect; rewrite E.
  destruct s as [|c s]; [now elim N |].
  destruct (sessionId st) as [s'|] eqn:S; [| reflexivity].
  destruct (jsstring_eqb (c :: s) s') eqn:B; [| reflexivity].
  apply jsstring_eqb_eq in B; now rewrite S, B.
Qed.

End ViewFrames.

Lemma commit_sessionId (h : View.Hooks) (c : View.Changed) (st : View.State) :
  View.sessionId (View.commit h c st) =
  View.sessionId (View.sessionEffect (View.data h) (View.sessionId st) st).
Proof.
  unfold View.commit.
  set (s1 := if View.navigation_changed c then _ else _).
  set (s2 := if View.data_changed c then _ else _).
  set (s3 := if View.location_changed c then View.clearEffect _ _ else _).
  set (s4 := if View.location_changed c then View.setChat _ _ else _).
  assert (E : View.sessionId s4 = View.sessionId st).
  { subst s4 s3 s2 s1.
    repeat match goal with
           | |- context [if ?b then _ else _] => destruct b
           end; effect_cases. }
  revert E; generalize s4; intros s E.
  unfold View.sessionEffect; repeat case_match; simpl; congruence.
Qed.

(** C3. A failed call returns the session identifier of the request
    unchanged; a successful one returns the service's identifier when it
    supplies one, and the request's otherwise; the view replaces its stored
    identifier only when the result carries one that differs from it, and
    then by that one. *)
Theorem session_identifier_threading :
  (forall svc env body e,
      Handler.throws svc env body e ->
      Handler.sessionId (Handler.returned (Handler.action svc env body))
      = Handler.body_sessionId body)
  /\ (forall svc env body r,
         Handler.succeeds svc env body r ->
         let sid := Handler.sessionId
                      (Handler.returned (Handler.action svc env body)) in
         (forall s, Handler.response_sessionId r = Some s -> s <> [] ->
                    sid = Some s)
         /\ (Handler.response_sessionId r = None
             \/ Handler.response_sessionId r = Some [] ->
             sid = Handler.body_sessionId body))
  /\ (forall st e,
         View.sessionId (View.step st e) <> View.sessionId st ->
         exists h c s,
           e = View.rendered h c
           /\ View.field Handler.sessionId (View.data h) = Some s
           /\ Some s <> View.sessionId st
           /\ View.sessionId (View.step st e) = Some s)
  /\ (forall st h c s,
         View.field Handler.sessionId (View.data h) = Some s -> s <> [] ->
         View.sessionId (View.step st (View.rendered h c)) = Some s).
Proof.
  repeat apply conj.
  - intros svc env body e T; now rewrite (action_throws svc env body e T).
  - intros svc env body r S sid; subst sid.
    rewrite (action_succeeds svc env body r S); simpl; split.
    + intros s E N; rewrite <- E; apply or_else_truthy, truthy_Some; eauto.
    + intro F; apply or_else_falsy, truthy_false, F.
  - intros st [v m | key shiftKey | | h c] D; simpl in D.
    + exfalso; apply D; destruct (View.inputRef st); [| reflexivity].
      effect_cases.
    + exfalso; apply D; destruct (View.inputRef st); [| reflexivity].
      apply submitFormOnEnter_frame.
    + exfalso; apply D; now destruct (View.inputRef st).
    + exists h, c; simpl; rewrite commit_sessionId in D |- *.
      destruct (sessionEffect_sessionId st (View.data h) (View.sessionId st))
        as [E | (s & E & N & F & G)]; [now elim D |].
      exists s; auto.
  - intros st h c s E N; simpl; rewrite commit_sessionId.
    now apply sessionEffect_adopts.
Qed.

(** ** The chat view: handler results *)

Section DataEffect.

Import View.

Variables (loc : option LocationState) (shown : list ChatHistoryProps).
Variable st : State.

Lemma dataEffect_error d e :
  field Handler.error d = Some e -> e <> [] ->
  dataEffect d loc shown st = pushChatHistory (error_turn e) st.
Proof.
  intros E N; unfold dataEffect; rewrite E.
  destruct e; [now elim N | reflexivity].
Qed.

Lemma dataEffect_answer d a :
  truthy (field Handler.error d) = false ->
  field Handler.answer d = Some a -> a <> [] ->
  dataEffect d loc shown st =
    navigate (with_chatHistory loc (shown ++ [answer_turn a]))
             (pushChatHistory (answer_turn a) st).
Proof.
  intros F A N; unfold dataEffect; rewrite A.
  destruct a; [now elim N |].
  apply truthy_false in F; destruct F as [-> | ->]; reflexivity.
Qed.

Lemma dataEffect_nothing d :
  truthy (field Handler.error d) = false ->
  truthy (field Handler.answer d) = false ->
  dataEffect d loc shown st = st.
Proof.
  intros F A; unfold dataEffect.
  apply truthy_false in F; apply truthy_false in A.
  destruct F as [-> | ->], A as [-> | ->]; reflexivity.
Qed.

End DataEffect.

(** A commit in which [location] did not change leaves the transcript as
    the data effect made it. *)
Lemma commit_chatHistory_same_location h c st :
  View.location_changed c = false ->
  View.chatHistory (View.commit h c st) =
  View.chatHistory
    (if View.data_changed c
     then View.dataEffect (View.data h) (View.location_state h)
            (View.chatHistory st) st
     else st).
Proof.
  intro L; unfold View.commit; rewrite L.
  destruct (View.navigation_changed c), (View.data_changed c); effect_cases.
Qed.

Lemma commit_navigated h c st :
  View.navigated (View.commit h c st) =
  View.navigated
    (if View.data_changed c
     then View.dataEffect (View.data h) (View.location_state h)
            (View.chatHistory st) st
     else st).
Proof.
  unfold View.commit.
  destruct (View.navigation_changed c), (View.data_changed c),
    (View.location_changed c); effect_cases.
Qed.

(** C1, as amended. For a handler result with no error field and a
    non-empty answer, the view appends exactly one assistant turn, not
    flagged as an error, whose content is the answer; for a result with no
    error field whose answer is empty or missing it appends no turn. *)
Theorem success_appends_answer_turn :
  forall (d : Handler.ReturnedDataProps) loc shown st,
    Handler.error d = None ->
    (forall a, Handler.answer d = Some a -> a <> [] ->
       View.chatHistory (View.dataEffect (Some d) loc shown st)
       = View.chatHistory st
           ++ [{| View.content := a; View.role := View.assistant;
                  View.error := None |}]
       /\ View.chatHistory (View.step st (View.resolved d loc))
          = View.chatHistory st
              ++ [{| View.content := a; View.role := View.assistant;
                     View.error := None |}])
    /\ (Handler.answer d = None \/ Handler.answer d = Some [] ->
        View.chatHistory (View.dataEffect (Some d) loc shown st)
        = View.chatHistory st).
Proof.
  intros d loc shown st E; split.
  - intros a A N.
    assert (F : truthy (View.field Handler.error (Some d)) = false)
      by (simpl; now rewrite E).
    split.
    + now rewrite (dataEffect_answer loc shown st (Some d) a F A N).
    + simpl; rewrite commit_chatHistory_same_location by reflexivity; simpl.
      now rewrite (dataEffect_answer loc _ st (Some d) a F A N).
  - intro A; rewrite dataEffect_nothing; [reflexivity | |].
    + simpl; now rewrite E.
    + now apply truthy_false.
Qed.

Lemma success_appends_answer_turn_witness :
  let d := Handler.returned
             (Handler.action
                (answering_service (Some (js "Six years.")) (Some (js "abc123")))
                no_env
                (View.form_body (js "What is the statute of limitations?")
                                None)) in
  let st := View.run View.initial
              [View.typed (js "What is the statute of limitations?") one_line;
               View.keydown View.Enter false;
               View.now_submitting no_hooks] in
  View.chatHistory (View.step st (View.resolved d None))
  = [View.user_turn (js "What is the statute of limitations?");
     View.answer_turn (js "Six years.")]
  /\ View.sessionId (View.step st (View.resolved d None))
     = Some (js "abc123").
Proof.
  intros d st; split; [| reflexivity].
  exact (proj2 (proj1 (success_appends_answer_turn d None [] st eq_refl)
                  (js "Six years.") eq_refl ltac:(discriminate))).
Defined.

(** C1 as written fails: a result with no error field and the empty answer
    appends no turn at all. *)
Lemma empty_answer_appends_nothing :
  let d := Handler.returned
             (Handler.action (answering_service (Some []) (Some (js "abc123")))
                no_env (View.form_body (js "Hello?") None)) in
  let st := View.run View.initial
              [View.typed (js "Hello?") one_line;
               View.keydown View.Enter false;
               View.now_submitting no_hooks] in
  Handler.error d = None
  /\ Handler.answer d = Some []
  /\ View.chatHistory (View.step st (View.resolved d None))
     = View.chatHistory st
  /\ View.chatHistory (View.dataEffect (Some d) None (View.chatHistory st) st)
     = View.chatHistory st
  /\ ~ exists t,
         View.chatHistory
           (View.dataEffect (Some d) None (View.chatHistory st) st)
         = View.chatHistory st ++ [t].
Proof.
  intros d st; repeat split.
  intros [t H]; vm_compute in H; discriminate.
Qed.

(** ** The chat view: navigation state *)



(** ** The chat view: submission *)

Lemma commit_inputRef h c st :
  View.inputRef (View.commit h c st) =
  View.inputRef
    (if View.navigation_changed c
     then View.inputEffect (View.navigation_state h) st
     else st).
Proof.
  unfold View.commit.
  destruct (View.navigation_changed c), (View.data_changed c),
    (View.location_changed c);
    unfold View.dataEffect, View.clearEffect, View.setChat,
      View.sessionEffect, View.pushChatHistory;
    repeat case_match; reflexivity.
Qed.

(** C4. When the trimmed message is longer than 2, either way of submitting
    appends a user turn holding the message and hands the form to the
    router, all before any result is delivered; the input is cleared once
    the router reports the submission, and the transcript keeps the turn. *)
Theorem submission_appends_user_turn :
  forall (p : View.SubmitPath) (st : View.State) (t : View.Textarea)
         (h : View.Hooks),
    View.inputRef st = Some t ->
    (2 < List.length (trim (View.value t)))%nat ->
    let st1 := View.step st (View.submission p) in
    let st2 := View.step st1 (View.now_submitting h) in
    View.chatHistory st1
    = View.chatHistory st
        ++ [{| View.content := View.value t; View.role := View.user;
               View.error := None |}]
    /\ View.submitted st1
       = View.submitted st ++ [View.form_body (View.value t) (View.sessionId st)]
    /\ View.navigated st1 = View.navigated st
    /\ View.chatHistory st2 = View.chatHistory st1
    /\ exists t2, View.inputRef st2 = Some t2 /\ View.value t2 = [].
Proof.
  intros p st t h I L st1 st2.
  assert (G : (2 <? Z.of_nat (List.length (trim (View.value t)))) = true)
    by (apply Z.ltb_lt; lia).
  assert (E1 : st1 = View.submit (View.form_body (View.value t) (View.sessionId st))
                       (View.saveUserMessage (View.value t) st)).
  { subst st1; destruct p; unfold View.submission, View.step; rewrite I;
      [reflexivity |].
    unfold View.submitFormOnEnter; rewrite G.
    replace (jsstring_eqb View.Enter View.Enter) with true by reflexivity.
    reflexivity. }
  subst st2; rewrite E1 in *; clear E1.
  repeat split.
  - simpl; rewrite commit_chatHistory_same_location; reflexivity.
  - exists {| View.value := []; View.rows := View.Num 1;
              View.scrollTop := View.scrollTop t;
              View.focused := View.focused t |}.
    split; [| reflexivity].
    simpl; rewrite commit_inputRef; simpl.
    unfold View.inputEffect; simpl; now rewrite I.
Qed.

Lemma submission_appends_user_turn_witness :
  let st := View.step View.initial (View.typed (js "  Hello?  ") one_line) in
  let cleared st1 :=
    exists t2,
      View.inputRef (View.step st1 (View.now_submitting no_hooks)) = Some t2
      /\ View.value t2 = [] in
  (2 < List.length (trim (js "  Hello?  ")))%nat
  /\ View.chatHistory (View.step st View.submit_event)
     = [View.user_turn (js "  Hello?  ")]
  /\ cleared (View.step st View.submit_event)
  /\ View.chatHistory (View.step st (View.keydown View.Enter false))
     = [View.user_turn (js "  Hello?  ")]
  /\ cleared (View.step st (View.keydown View.Enter false)).
Proof.
  intros st cleared.
  assert (L : (2 < List.length (trim (js "  Hello?  ")))%nat)
    by (vm_compute; lia).
  pose (t := {| View.value := js "  Hello?  "; View.rows := View.Num 1;
                View.scrollTop := 0; View.focused := false |}).
  destruct (submission_appends_user_turn View.by_click st t no_hooks
              eq_refl L) as (A & _ & _ & _ & B).
  destruct (submission_appends_user_turn View.by_enter st t no_hooks
              eq_refl L) as (A' & _ & _ & _ & B').
  repeat split; assumption.
Defined.

(** ** The chat view: loading from navigation state *)

(** When [location] changed, the transcript after the commit is decided by
    the two effects on [location], whatever ran before them. *)
Lemma commit_chatHistory_new_location h c st :
  View.location_changed c = true ->
  View.chatHistory (View.commit h c st) =
  match View.location_state h with
  | None => []
  | Some s =>
      match View.state_chatHistory s with
      | Some l => l
      | None =>
          View.chatHistory
            (if View.data_changed c
             then View.dataEffect (View.data h) (View.location_state h)
                    (View.chatHistory st) st
             else st)
      end
  end.
Proof.
  intro L; unfold View.commit; rewrite L.
  destruct (View.location_state h) as [s|] eqn:E.
  - destruct (View.state_chatHistory s) as [l|] eqn:F;
      destruct (View.navigation_changed c), (View.data_changed c);
      unfold View.setChat, View.clearEffect; rewrite ?F;
      effect_cases.
  - destruct (View.navigation_changed c), (View.data_changed c);
      effect_cases.
Qed.

(** C6. Shown for a navigation state that holds a transcript, the view sets
    its transcript to exactly that list. *)
Theorem navigation_state_restores_transcript :
  forall (st : View.State) (h : View.Hooks) (c : View.Changed)
         (s : View.LocationState) (l : list View.ChatHistoryProps),
    View.location_changed c = true ->
    View.location_state h = Some s ->
    View.state_chatHistory s = Some l ->
    View.chatHistory (View.step st (View.rendered h c)) = l
    /\ View.chatHistory (View.setChat (View.location_state h) st) = l.
Proof.
  intros st h c s l L E F; split.
  - simpl; rewrite commit_chatHistory_new_location by assumption.
    now rewrite E, F.
  - unfold View.setChat; now rewrite E, F.
Qed.

Lemma navigation_state_restores_transcript_witness :
  let l := [View.user_turn (js "What is the statute of limitations?");
            View.answer_turn (js "Six years.")] in
  let s := {| View.state_chatHistory := Some l; View.state_rest := [] |} in
  View.chatHistory (View.step View.initial (View.loaded (Some s))) = l.
Proof.
  intros l s.
  exact (proj1 (navigation_state_restores_transcript View.initial
                  {| View.data := None; View.location_state := Some s;
                     View.navigation_state := View.idle |}
                  {| View.navigation_changed := true;
                     View.data_changed := true;
                     View.location_changed := true |}
                  s l eq_refl eq_refl eq_refl)).
Defined.

(** C7. Shown with no navigation state, the view sets its transcript to the
    empty list. *)
Theorem no_navigation_state_clears_transcript :
  forall (st : View.State) (h : View.Hooks) (c : View.Changed),
    View.location_changed c = true ->
    View.location_state h = None ->
    View.chatHistory (View.step st (View.rendered h c)) = []
    /\ View.chatHistory (View.clearEffect (View.location_state h) st) = [].
Proof.
  intros st h c L E; split.
  - simpl; rewrite commit_chatHistory_new_location by assumption.
    now rewrite E.
  - now rewrite E.
Qed.

Lemma no_navigation_state_clears_transcript_witness :
  let st := View.run View.initial
              [View.typed (js "Hello?") one_line;
               View.keydown View.Enter false] in
  View.chatHistory st = [View.user_turn (js "Hello?")]
  /\ View.chatHistory (View.step st (View.loaded None)) = [].
Proof.
  intro st; split; [reflexivity |].
  exact (proj1 (no_navigation_state_clears_transcript st
                  {| View.data := None; View.location_state := None;
                     View.navigation_state := View.idle |}
                  {| View.navigation_changed := true;
                     View.data_changed := true;
                     View.location_changed := true |}
                  eq_refl eq_refl)).
Defined.

(** ** The auto-growing textarea *)

Lemma handleTextareaChange_rows m st t :
  View.inputRef st = Some t ->
  exists t',
    View.inputRef (View.handleTextareaChange m st) = Some t'
    /\ View.rows t' =
       if View.geb (View.currentRows m) View.maxTextareaRows
       then View.Num View.maxTextareaRows
       else View.currentRows m.
Proof.
  intro I; unfold View.handleTextareaChange; rewrite I.
  destruct (View.geb (View.currentRows m) View.maxTextareaRows);
    eexists; split; reflexivity.
Qed.



(** * Further properties of the code *)

(** ** What [trim] leaves *)

Lemma trimStart_length (s : jsstring) :
  (List.length (trimStart s) <= List.length s)%nat.
Proof.
  induction s as [|c r IH]; simpl; [lia |].
  destruct (isWhiteSpace c); simpl; lia.
Qed.

Lemma trim_length (s : jsstring) :
  (List.length (trim s) <= List.length s)%nat.
Proof.
  unfold trim, trimEnd; rewrite length_rev.
  etransitivity; [apply trimStart_length |].
  rewrite length_rev; apply trimStart_length.
Qed.

Lemma trimStart_blank (s : jsstring) :
  forallb isWhiteSpace s = true -> trimStart s = [].
Proof.
  induction s as [|c r IH]; simpl; [reflexivity |].
  intro H; apply andb_true_iff in H; destruct H as [C R].
  rewrite C; auto.
Qed.

Lemma trim_blank (s : jsstring) :
  forallb isWhiteSpace s = true -> trim s = [].
Proof.
  intro H; unfold trim; now rewrite (trimStart_blank s H).
Qed.

(** ** Submitting with the keyboard and with the button *)

Lemma submitFormOnEnter_blocked key shiftKey v sid st :
  key <> View.Enter \/ shiftKey = true
  \/ (List.length (trim v) <= 2)%nat ->
  View.submitFormOnEnter key shiftKey v sid st = st.
Proof.
  unfold View.submitFormOnEnter; intros [K | [S | L]].
  - destruct (jsstring_eqb key View.Enter) eqn:E; [| reflexivity].
    apply jsstring_eqb_eq in E; contradiction.
  - rewrite S; simpl; now rewrite andb_false_r.
  - replace (2 <? Z.of_nat (List.length (trim v))) with false
      by (symmetry; apply Z.ltb_ge; lia).
    now rewrite andb_false_r.
Qed.

(** X1. A key press changes the state exactly when the key is Enter, Shift
    is not held and the trimmed value is longer than 2; in every other case
    no turn is added and nothing is submitted. *)
Theorem keydown_acts_iff_guard :
  forall (st : View.State) (t : View.Textarea) (key : jsstring)
         (shiftKey : bool),
    View.inputRef st = Some t ->
    (View.step st (View.keydown key shiftKey) <> st
     <-> key = View.Enter /\ shiftKey = false
         /\ (2 < List.length (trim (View.value t)))%nat)
    /\ (View.step st (View.keydown key shiftKey) = st
        \/ View.step st (View.keydown key shiftKey)
           = View.submit (View.form_body (View.value t) (View.sessionId st))
               (View.saveUserMessage (View.value t) st)).
Proof.
  intros st t key shiftKey I; simpl; rewrite I.
  destruct (list_eq_dec N.eq_dec key View.Enter) as [K | K].
  2:{ rewrite submitFormOnEnter_blocked by auto.
      split; [| now left]. split; [now intros [] | now intros [? _]]. }
  destruct shiftKey.
  { rewrite submitFormOnEnter_blocked by auto.
    split; [| now left].
    split; [now intros [] | intros (_ & ? & _); discriminate]. }
  destruct (le_lt_dec (List.length (trim (View.value t))) 2) as [L | L].
  { rewrite submitFormOnEnter_blocked by auto.
    split; [| now left]. split; [now intros [] | intros (_ & _ & ?); lia]. }
  assert (E : View.submitFormOnEnter key false (View.value t)
                (View.sessionId st) st
              = View.submit (View.form_body (View.value t) (View.sessionId st))
                  (View.saveUserMessage (View.value t) st)).
  { unfold View.submitFormOnEnter.
    replace (jsstring_eqb key View.Enter) with true
      by (symmetry; now apply jsstring_eqb_eq).
    replace (2 <? Z.of_nat (List.length (trim (View.value t)))) with true
      by (symmetry; apply Z.ltb_lt; lia).
    reflexivity. }
  rewrite E; split; [| now right].
  split; [auto |].
  intros _ H.
  apply (f_equal (fun s => List.length (View.chatHistory s))) in H.
  simpl in H; rewrite length_app in H; simpl in H; lia.
Qed.

Lemma keydown_acts_iff_guard_witness :
  let st := View.step View.initial (View.typed (js "Hello?") one_line) in
  View.step st (View.keydown View.Enter true) = st
  /\ View.step st (View.keydown (js "a") false) = st
  /\ View.step st (View.keydown View.Enter false) <> st.
Proof.
  intro st; split; [reflexivity | split; [reflexivity |]].
  apply (proj1 (keydown_acts_iff_guard st
                  {| View.value := js "Hello?"; View.rows := View.Num 1;
                     View.scrollTop := 0; View.focused := false |}
                  View.Enter false eq_refl)).
  repeat split; vm_compute; lia.
Defined.

(** X2. Enter never submits a message that consists of white space only,
    nor one of fewer than three code units. *)
Theorem enter_ignores_blank_and_short_messages :
  forall (st : View.State) (t : View.Textarea) (shiftKey : bool),
    View.inputRef st = Some t ->
    forallb isWhiteSpace (View.value t) = true
    \/ (List.length (View.value t) <= 2)%nat ->
    View.step st (View.keydown View.Enter shiftKey) = st.
Proof.
  intros st t shiftKey I H; simpl; rewrite I.
  apply submitFormOnEnter_blocked; right; right.
  destruct H as [B | S].
  - rewrite (trim_blank _ B); simpl; lia.
  - pose proof (trim_length (View.value t)); lia.
Qed.

Lemma enter_ignores_blank_and_short_messages_witness :
  let blank := [32; 9; 10; 160; 8202; 65279; 32]%N in
  let st := View.step View.initial (View.typed blank one_line) in
  (2 < List.length blank)%nat
  /\ View.step st (View.keydown View.Enter false) = st.
Proof.
  intros blank st; split; [vm_compute; lia |].
  refine (enter_ignores_blank_and_short_messages st
            {| View.value := blank; View.rows := View.Num 1;
               View.scrollTop := 0; View.focused := false |}
            false eq_refl _).
  left; reflexivity.
Defined.

(** X3. The button is not guarded the way Enter is: for a message whose
    trimmed length is at most 2, Enter does nothing, while the form's submit
    event still appends the user turn and posts the form. *)
Theorem submit_event_is_not_guarded :
  forall (st : View.State) (t : View.Textarea),
    View.inputRef st = Some t ->
    (List.length (trim (View.value t)) <= 2)%nat ->
    View.step st (View.keydown View.Enter false) = st
    /\ View.chatHistory (View.step st View.submit_event)
       = View.chatHistory st ++ [View.user_turn (View.value t)]
    /\ View.submitted (View.step st View.submit_event)
       = View.submitted st
           ++ [View.form_body (View.value t) (View.sessionId st)].
Proof.
  intros st t I L; simpl; rewrite I; repeat split.
  apply submitFormOnEnter_blocked; auto.
Qed.

Lemma submit_event_is_not_guarded_witness :
  let st := View.step View.initial (View.typed (js "ok") one_line) in
  View.step st (View.keydown View.Enter false) = st
  /\ View.chatHistory (View.step st View.submit_event)
     = [View.user_turn (js "ok")].
Proof.
  intro st.
  destruct (submit_event_is_not_guarded st
              {| View.value := js "ok"; View.rows := View.Num 1;
                 View.scrollTop := 0; View.focused := false |}
              eq_refl ltac:(vm_compute; lia)) as (A & B & _).
  split; [exact A | exact B].
Defined.

(** ** The auto-growing textarea, beyond the usual measurements *)

Lemma currentRows_numeric m lh pt pb :
  View.lineHeight m = Some lh -> View.paddingTop m = Some pt ->
  View.paddingBottom m = Some pb -> lh <> 0 ->
  View.currentRows m = View.Num ((View.scrollHeight m - pt - pb) / lh).
Proof.
  intros LH PT PB N; unfold View.currentRows; rewrite LH, PT, PB; simpl.
  destruct (Z.eqb_spec lh 0); [contradiction | reflexivity].
Qed.

(** X4. Whatever the browser measures, the handler never leaves more than
    three rows: the value it assigns is a number that is at most 3, or it is
    not a positive number at all (NaN or minus infinity). *)
Theorem assigned_rows_never_exceed_maximum :
  forall (m : View.Measured) (st : View.State) (t : View.Textarea),
    View.inputRef st = Some t ->
    exists t',
      View.inputRef (View.handleTextareaChange m st) = Some t'
      /\ (View.rows t' = View.NaN \/ View.rows t' = View.NegInf
          \/ exists r, View.rows t' = View.Num r /\ r <= 3).
Proof.
  intros m st t I.
  destruct (handleTextareaChange_rows m st t I) as (t' & I' & R).
  exists t'; split; [exact I' |]; rewrite R.
  destruct (View.currentRows m) as [z | | |] eqn:C; simpl.
  - unfold View.maxTextareaRows; destruct (Z.leb_spec 3 z);
      right; right; eexists; split; try reflexivity; lia.
  - right; right; exists 3; split; [reflexivity | lia].
  - auto.
  - auto.
Qed.

Lemma assigned_rows_never_exceed_maximum_witness :
  let m := {| View.lineHeight := Some 24; View.paddingTop := Some 12;
              View.paddingBottom := Some 12; View.scrollHeight := 2424;
              View.target_scrollHeight := 2424 |} in
  exists t',
    View.inputRef (View.handleTextareaChange m View.initial) = Some t'
    /\ (View.rows t' = View.NaN \/ View.rows t' = View.NegInf
        \/ exists r, View.rows t' = View.Num r /\ r <= 3).
Proof.
  intro m.
  exact (assigned_rows_never_exceed_maximum m View.initial _ eq_refl).
Defined.

(** X5. With a positive line height the assigned row count is the number of
    whole lines of the content, cut off at 3, so that more content never
    gives fewer rows. *)
Theorem assigned_rows_grow_with_content :
  forall (m1 m2 : View.Measured) (st : View.State) (t : View.Textarea)
         (lh pt pb : Z),
    View.inputRef st = Some t ->
    View.lineHeight m1 = Some lh -> View.lineHeight m2 = Some lh ->
    View.paddingTop m1 = Some pt -> View.paddingTop m2 = Some pt ->
    View.paddingBottom m1 = Some pb -> View.paddingBottom m2 = Some pb ->
    0 < lh ->
    View.scrollHeight m1 <= View.scrollHeight m2 ->
    exists t1 t2,
      View.inputRef (View.handleTextareaChange m1 st) = Some t1
      /\ View.inputRef (View.handleTextareaChange m2 st) = Some t2
      /\ View.rows t1
         = View.Num (Z.min ((View.scrollHeight m1 - pt - pb) / lh) 3)
      /\ View.rows t2
         = View.Num (Z.min ((View.scrollHeight m2 - pt - pb) / lh) 3)
      /\ Z.min ((View.scrollHeight m1 - pt - pb) / lh) 3
         <= Z.min ((View.scrollHeight m2 - pt - pb) / lh) 3.
Proof.
  intros m1 m2 st t lh pt pb I L1 L2 T1 T2 B1 B2 P S.
  destruct (handleTextareaChange_rows m1 st t I) as (t1 & I1 & R1).
  destruct (handleTextareaChange_rows m2 st t I) as (t2 & I2 & R2).
  rewrite (currentRows_numeric m1 lh pt pb) in R1 by (auto; lia).
  rewrite (currentRows_numeric m2 lh pt pb) in R2 by (auto; lia).
  assert (F : forall q, (if View.geb (View.Num q) View.maxTextareaRows
                         then View.Num View.maxTextareaRows
                         else View.Num q) = View.Num (Z.min q 3)).
  { intro q; simpl; unfold View.maxTextareaRows.
    destruct (Z.leb_spec 3 q); f_equal; lia. }
  rewrite F in R1, R2.
  exists t1, t2; repeat split; try assumption.
  apply Z.min_le_compat_r, Z.div_le_mono; lia.
Qed.

Lemma assigned_rows_grow_with_content_witness :
  let m h := {| View.lineHeight := Some 24; View.paddingTop := Some 12;
                View.paddingBottom := Some 12; View.scrollHeight := h;
                View.target_scrollHeight := h |} in
  exists t1 t2,
    View.inputRef (View.handleTextareaChange (m 50) View.initial) = Some t1
    /\ View.inputRef (View.handleTextareaChange (m 72) View.initial) = Some t2
    /\ View.rows t1 = View.Num 1
    /\ View.rows t2 = View.Num 2.
Proof.
  intro m.
  destruct (assigned_rows_grow_with_content (m 50) (m 72) View.initial _
              24 12 12 eq_refl eq_refl eq_refl eq_refl eq_refl eq_refl
              eq_refl ltac:(lia) ltac:(simpl; lia))
    as (t1 & t2 & I1 & I2 & R1 & R2 & _).
  exists t1, t2; repeat split; assumption.
Defined.

Lemma currentRows_NaN m :
  View.lineHeight m = None \/ View.paddingTop m = None
  \/ View.paddingBottom m = None ->
  View.currentRows m = View.NaN.
Proof.
  unfold View.currentRows.
  destruct (View.lineHeight m), (View.paddingTop m), (View.paddingBottom m);
    simpl; intros [H | [H | H]]; try discriminate; reflexivity.
Qed.

(** X6. When a measurement does not parse as a number (a line height of
    [normal], say) the handler assigns NaN; when the line height is zero and
    the content height positive, it assigns the maximum and scrolls the
    textarea to its end. *)
Theorem assigned_rows_on_degenerate_measurements :
  forall (m : View.Measured) (st : View.State) (t : View.Textarea),
    View.inputRef st = Some t ->
    exists t',
      View.inputRef (View.handleTextareaChange m st) = Some t'
      /\ (View.lineHeight m = None \/ View.paddingTop m = None
          \/ View.paddingBottom m = None ->
          View.rows t' = View.NaN /\ View.scrollTop t' = View.scrollTop t)
      /\ (forall pt pb,
             View.lineHeight m = Some 0 -> View.paddingTop m = Some pt ->
             View.paddingBottom m = Some pb ->
             0 < View.scrollHeight m - pt - pb ->
             View.rows t' = View.Num 3
             /\ View.scrollTop t' = View.target_scrollHeight m).
Proof.
  intros m st t I.
  destruct (handleTextareaChange_rows m st t I) as (t' & I' & R).
  exists t'; split; [exact I' |].
  assert (S : View.scrollTop t' =
              if View.geb (View.currentRows m) View.maxTextareaRows
              then View.target_scrollHeight m else View.scrollTop t).
  { revert I'; unfold View.handleTextareaChange; rewrite I.
    destruct (View.geb (View.currentRows m) View.maxTextareaRows);
      intro E; inversion E; reflexivity. }
  split.
  - intro H; rewrite R, S, (currentRows_NaN m H); split; reflexivity.
  - intros pt pb LH PT PB P.
    assert (C : View.currentRows m = View.PosInf).
    { unfold View.currentRows; rewrite LH, PT, PB; simpl.
      destruct (Z.ltb_spec 0 (View.scrollHeight m - pt - pb));
        [reflexivity | lia]. }
    rewrite R, S, C; split; reflexivity.
Qed.

Lemma assigned_rows_on_degenerate_measurements_witness :
  let m := {| View.lineHeight := None; View.paddingTop := Some 12;
              View.paddingBottom := Some 12; View.scrollHeight := 48;
              View.target_scrollHeight := 48 |} in
  exists t',
    View.inputRef (View.handleTextareaChange m View.initial) = Some t'
    /\ View.rows t' = View.NaN.
Proof.
  intro m.
  destruct (assigned_rows_on_degenerate_measurements m View.initial _ eq_refl)
    as (t' & I & A & _).
  exists t'; split; [exact I |].
  apply A; left; reflexivity.
Defined.

(** ** The transcript over a run *)

Lemma dataEffect_chatHistory d loc shown st :
  exists l,
    View.chatHistory (View.dataEffect d loc shown st)
    = View.chatHistory st ++ l
    /\ (List.length l <= 1)%nat
    /\ Forall (fun t => View.role t = View.assistant
                        /\ Router.flag_fits_role t = true) l.
Proof.
  unfold View.dataEffect.
  destruct (View.field Handler.error d) as [[|c e]|];
    [| exists [View.error_turn (c :: e)]; simpl; repeat constructor |];
    (destruct (View.field Handler.answer d) as [[|c' a]|];
     [| exists [View.answer_turn (c' :: a)]; simpl; repeat constructor |];
     exists []; rewrite app_nil_r; simpl; repeat constructor).
Qed.

Lemma dataEffect_navigated d loc shown st :
  View.navigated (View.dataEffect d loc shown st) = View.navigated st
  \/ exists a,
       View.navigated (View.dataEffect d loc shown st)
       = View.navigated st
           ++ [View.with_chatHistory loc (shown ++ [View.answer_turn a])].
Proof.
  unfold View.dataEffect.
  destruct (View.field Handler.error d) as [[|c e]|]; [| now left |];
    (destruct (View.field Handler.answer d) as [[|c' a]|];
     [now left | right; now exists (c' :: a) | now left]).
Qed.

(** X7. Typing only touches the textarea: the transcript, the session
    identifier, the navigation state written and the forms submitted stay as
    they are, and the textarea holds what was typed. *)
Theorem typing_only_changes_textarea :
  forall (st : View.State) (t : View.Textarea) (v : jsstring)
         (m : View.Measured),
    View.inputRef st = Some t ->
    let st' := View.step st (View.typed v m) in
    View.chatHistory st' = View.chatHistory st
    /\ View.sessionId st' = View.sessionId st
    /\ View.navigated st' = View.navigated st
    /\ View.submitted st' = View.submitted st
    /\ exists t', View.inputRef st' = Some t'
                  /\ View.value t' = v
                  /\ View.focused t' = View.focused t.
Proof.
  intros st t v m I st'; subst st'; simpl; rewrite I.
  unfold View.handleTextareaChange; simpl.
  destruct (View.geb (View.currentRows m) View.maxTextareaRows); simpl;
    repeat split; eexists; repeat split.
Qed.

Lemma typing_only_changes_textarea_witness :
  let st := View.run View.initial
              [View.typed (js "Hello?") one_line;
               View.keydown View.Enter false] in
  View.chatHistory (View.step st (View.typed (js "Again") one_line))
  = [View.user_turn (js "Hello?")]
  /\ View.submitted (View.step st (View.typed (js "Again") one_line))
     = View.submitted st.
Proof.
  intro st.
  destruct (typing_only_changes_textarea st _ (js "Again") one_line eq_refl)
    as (A & _ & _ & B & _).
  split; [exact A | exact B].
Defined.

(** X8. A render outside a submission never alters what the textarea holds:
    its value and rows stay, and it is focused when [navigation.state]
    changed. In particular a handler result does not erase the input. *)
Theorem results_keep_the_input :
  forall (st : View.State) (t : View.Textarea) (h : View.Hooks)
         (c : View.Changed),
    View.inputRef st = Some t ->
    View.navigation_state h <> View.submitting ->
    exists t',
      View.inputRef (View.step st (View.rendered h c)) = Some t'
      /\ View.value t' = View.value t
      /\ View.rows t' = View.rows t
      /\ (View.navigation_changed c = true -> View.focused t' = true).
Proof.
  intros st t h c I N; simpl; rewrite commit_inputRef.
  destruct (View.navigation_changed c).
  - unfold View.inputEffect; rewrite I.
    destruct (View.navigation_state h); try (now elim N);
      eexists; repeat split.
  - exists t; repeat split; [exact I | discriminate].
Qed.

Lemma results_keep_the_input_witness :
  let st := View.step View.initial (View.typed (js "draft") one_line) in
  let d := Handler.returned
             (Handler.action (answering_service (Some (js "Six years.")) None)
                no_env (View.form_body (js "Hello?") None)) in
  exists t',
    View.inputRef (View.step st (View.resolved d None)) = Some t'
    /\ View.value t' = js "draft".
Proof.
  intros st d.
  destruct (results_keep_the_input st _
              {| View.data := Some d; View.location_state := None;
                 View.navigation_state := View.idle |}
              {| View.navigation_changed := true; View.data_changed := true;
                 View.location_changed := false |}
              eq_refl ltac:(discriminate)) as (t' & I & V & _).
  exists t'; split; [exact I | exact V].
Defined.

(** X9. Unless [location] changes, an event never rewrites the transcript:
    the turns already there stay in place and at most one turn is added at
    the end. *)
Theorem transcript_is_append_only :
  forall (st : View.State) (e : View.Event),
    (forall h c, e = View.rendered h c -> View.location_changed c = false) ->
    exists l,
      View.chatHistory (View.step st e) = View.chatHistory st ++ l
      /\ (List.length l <= 1)%nat.
Proof.
  intros st [v m | key shiftKey | | h c] L; simpl.
  - exists []; rewrite app_nil_r; split; [| simpl; lia].
    destruct (View.inputRef st); [| reflexivity]; effect_cases.
  - destruct (View.inputRef st) as [t|];
      [| exists []; rewrite app_nil_r; split; [reflexivity | simpl; lia]].
    unfold View.submitFormOnEnter.
    destruct (_ && _ && _).
    + exists [View.user_turn (View.value t)]; split; [reflexivity | simpl; lia].
    + exists []; rewrite app_nil_r; split; [reflexivity | simpl; lia].
  - destruct (View.inputRef st) as [t|].
    + exists [View.user_turn (View.value t)]; split; [reflexivity | simpl; lia].
    + exists []; rewrite app_nil_r; split; [reflexivity | simpl; lia].
  - rewrite commit_chatHistory_same_location by (now apply (L h c)).
    destruct (View.data_changed c).
    + destruct (dataEffect_chatHistory (View.data h) (View.location_state h)
                  (View.chatHistory st) st) as (l & E & N & _).
      exists l; auto.
    + exists []; rewrite app_nil_r; split; [reflexivity | simpl; lia].
Qed.

Lemma transcript_is_append_only_witness :
  let d := Handler.returned
             (Handler.action (failing_service None) no_env
                (View.form_body (js "Hello?") None)) in
  let st := View.run View.initial
              [View.typed (js "Hello?") one_line;
               View.keydown View.Enter false] in
  exists l,
    View.chatHistory (View.step st (View.resolved d None))
    = [View.user_turn (js "Hello?")] ++ l
    /\ (List.length l <= 1)%nat.
Proof.
  intros d st.
  refine (transcript_is_append_only st (View.resolved d None) _).
  intros h c E; inversion E; reflexivity.
Defined.

Lemma flags_fit_step st e :
  Router.flags_fit st -> Router.admissible st e -> Router.flags_fit (View.step st e).
Proof.
  intros [C W] A.
  assert (U : forall v, Router.fits (View.user_turn v)) by (intro; reflexivity).
  destruct e as [v m | key shiftKey | | h c]; simpl.
  - destruct (View.inputRef st); [| now split].
    destruct (handleTextareaChange_frame
                (View.setInput
                   (Some {| View.value := v; View.rows := View.rows t;
                            View.scrollTop := View.scrollTop t;
                            View.focused := View.focused t |}) st) m)
      as (E1 & _ & E2 & _).
    split; [rewrite E1 | rewrite E2]; assumption.
  - destruct (View.inputRef st) as [t|]; [| now split].
    unfold View.submitFormOnEnter; destruct (_ && _ && _); [| now split].
    split; simpl; [apply Forall_app; split; auto | assumption].
  - destruct (View.inputRef st) as [t|]; [| now split].
    split; simpl; [apply Forall_app; split; auto | assumption].
  - assert (D : Forall Router.fits
                  (View.chatHistory
                     (if View.data_changed c
                      then View.dataEffect (View.data h)
                             (View.location_state h) (View.chatHistory st) st
                      else st))).
    { destruct (View.data_changed c); [| assumption].
      destruct (dataEffect_chatHistory (View.data h) (View.location_state h)
                  (View.chatHistory st) st) as (l & -> & _ & F).
      apply Forall_app; split; [assumption |].
      eapply Forall_impl; [| exact F]; now intros t [_ ?]. }
    split.
    + destruct (View.location_changed c) eqn:L.
      * rewrite commit_chatHistory_new_location by assumption.
        simpl in A; destruct (View.location_state h) as [s|] eqn:LS;
          [| constructor].
        destruct (View.state_chatHistory s) as [l|] eqn:SC;
          [| exact D].
        rewrite Forall_forall in W; exact (W s A l SC).
      * rewrite commit_chatHistory_same_location by assumption; exact D.
    + rewrite commit_navigated.
      destruct (View.data_changed c); [| assumption].
      destruct (dataEffect_navigated (View.data h) (View.location_state h)
                  (View.chatHistory st) st) as [-> | [a ->]];
        [assumption |].
      apply Forall_app; split; [assumption |].
      constructor; [| constructor].
      intros l E; simpl in E; inversion E; subst.
      apply Forall_app; split; [assumption | now repeat constructor].
Qed.

Lemma flags_fit_run es :
  forall st, Router.flags_fit st -> Router.admissible_run st es ->
             Router.flags_fit (View.run st es).
Proof.
  induction es as [|e r IH]; intros st F A; simpl; [exact F |].
  destruct A as [A R]; apply IH; [now apply flags_fit_step | exact R].
Qed.

(** X10. Over any run in which the router only shows navigation state that
    the view wrote, no user turn is ever flagged as an error: in the
    transcript and in every transcript written to navigation state, a turn
    with the error flag has the assistant role. *)
Theorem error_flag_only_on_assistant_turns :
  forall (es : list View.Event),
    Router.admissible_run View.initial es ->
    let st := View.run View.initial es in
    (forall t, In t (View.chatHistory st) ->
               View.error t = Some true -> View.role t = View.assistant)
    /\ (forall s l t, In s (View.navigated st) ->
                      View.state_chatHistory s = Some l -> In t l ->
                      View.error t = Some true ->
                      View.role t = View.assistant).
Proof.
  intros es A st.
  assert (F : Router.flags_fit st).
  { apply flags_fit_run; [| exact A]. split; constructor. }
  assert (R : forall t, Router.fits t -> View.error t = Some true ->
                        View.role t = View.assistant).
  { intros t P E; unfold Router.fits, Router.flag_fits_role in P; rewrite E in P.
    destruct (View.role t); [discriminate | reflexivity]. }
  destruct F as [C W]; rewrite Forall_forall in C, W; split.
  - intros t I; apply R; auto.
  - intros s l t I E J; apply R.
    specialize (W s I l E); rewrite Forall_forall in W; auto.
Qed.

Lemma error_flag_only_on_assistant_turns_witness :
  let failed := Handler.returned
                  (Handler.action (failing_service (Some (js "Access denied")))
                     no_env (View.form_body (js "Hello?") None)) in
  let st := View.run View.initial
              [View.typed (js "Hello?") one_line;
               View.keydown View.Enter false;
               View.now_submitting no_hooks;
               View.resolved failed None] in
  In (View.error_turn (js "Access denied")) (View.chatHistory st)
  /\ forall t, In t (View.chatHistory st) ->
               View.error t = Some true -> View.role t = View.assistant.
Proof.
  intros failed st; split; [right; left; reflexivity |].
  refine (proj1 (error_flag_only_on_assistant_turns
                   [View.typed (js "Hello?") one_line;
                    View.keydown View.Enter false;
                    View.now_submitting no_hooks;
                    View.resolved failed None] _)).
  simpl; tauto.
Defined.

(** X11. What a successful result writes to navigation state is the
    transcript the view shows afterwards, so showing that entry again, by
    going back or forward to it, leaves the transcript as it is. *)
Theorem written_state_is_shown_transcript :
  forall (st : View.State) (h : View.Hooks) (c : View.Changed) (a : jsstring),
    View.data_changed c = true ->
    View.location_changed c = false ->
    truthy (View.field Handler.error (View.data h)) = false ->
    View.field Handler.answer (View.data h) = Some a -> a <> [] ->
    let st' := View.step st (View.rendered h c) in
    exists w,
      View.navigated st' = View.navigated st ++ [w]
      /\ View.state_chatHistory w = Some (View.chatHistory st')
      /\ View.chatHistory (View.step st' (View.loaded (Some w)))
         = View.chatHistory st'.
Proof.
  intros st h c a D L F A N st'; subst st'; simpl.
  exists (View.with_chatHistory (View.location_state h)
            (View.chatHistory st ++ [View.answer_turn a])).
  rewrite commit_navigated, commit_chatHistory_same_location, D by assumption.
  rewrite (dataEffect_answer _ _ st _ a F A N); simpl.
  repeat split.
Qed.

Lemma written_state_is_shown_transcript_witness :
  let d := Handler.returned
             (Handler.action
                (answering_service (Some (js "Six years.")) (Some (js "abc123")))
                no_env (View.form_body (js "Hello?") None)) in
  let st := View.run View.initial
              [View.typed (js "Hello?") one_line;
               View.keydown View.Enter false;
               View.now_submitting no_hooks] in
  let st' := View.step st (View.resolved d None) in
  exists w,
    View.navigated st' = [w]
    /\ View.state_chatHistory w
       = Some [View.user_turn (js "Hello?");
               View.answer_turn (js "Six years.")]
    /\ View.chatHistory (View.step st' (View.loaded (Some w)))
       = View.chatHistory st'.
Proof.
  intros d st st'.
  exact (written_state_is_shown_transcript st
           {| View.data := Some d; View.location_state := None;
              View.navigation_state := View.idle |}
           {| View.navigation_changed := true; View.data_changed := true;
              View.location_changed := false |}
           (js "Six years.") eq_refl eq_refl eq_refl eq_refl
           ltac:(discriminate)).
Defined.

(** X12. After a commit, rendering again with the same hook values and no
    changed dependency changes nothing: the session effect, which runs at
    every commit, has reached its fixed point. *)
Theorem rerender_is_a_fixed_point :
  forall (st : View.State) (h : View.Hooks) (c : View.Changed),
    let st' := View.commit h c st in
    View.commit h {| View.navigation_changed := false;
                     View.data_changed := false;
                     View.location_changed := false |} st' = st'.
Proof.
  intros st h c st'.
  assert (S : View.sessionId st'
              = View.sessionId
                  (View.sessionEffect (View.data h) (View.sessionId st) st))
    by apply commit_sessionId.
  unfold View.commit at 1; simpl.
  revert S; generalize st'; clear st'; intros st' S.
  destruct (View.field Handler.sessionId (View.data h)) as [[|x s]|] eqn:F;
    try (unfold View.sessionEffect; now rewrite F).
  rewrite (sessionEffect_adopts st (View.data h) (x :: s) F) in S
    by discriminate.
  unfold View.sessionEffect; rewrite F, S.
  replace (jsstring_eqb (x :: s) (x :: s)) with true
    by (symmetry; now apply jsstring_eqb_eq).
  reflexivity.
Qed.

(** ** The view and the handler together *)

Lemma sent_sessionId svc env body :
  Forall (fun i => Handler.input_text i = Handler.body_message body
                   /\ Handler.input_sessionId i
                      = if truthy (Handler.body_sessionId body)
                        then Handler.body_sessionId body else None)
    (Handler.sent (Handler.action svc env body)).
Proof.
  destruct (action_sent svc env body) as [-> | ->]; repeat constructor.
Qed.

Lemma form_body_sessionId msg sid :
  (if truthy (Handler.body_sessionId (View.form_body msg sid))
   then Handler.body_sessionId (View.form_body msg sid) else None)
  = if truthy sid then sid else None.
Proof. destruct sid as [[|c s]|]; reflexivity. Qed.

(** X13. The form the view posts always has a [sessionId] field, and the
    command built from it carries the stored session identifier when that is
    a non-empty string and no session identifier otherwise; the command's
    text is the posted message. *)
Theorem stored_session_reaches_the_service :
  forall (st : View.State) (svc : Handler.Service) (env : Handler.Env)
         (msg : jsstring),
    let body := View.form_body msg (View.sessionId st) in
    Handler.body_sessionId body
    = Some (Page.hidden_sessionId (Page.render st View.idle))
    /\ Forall (fun i => Handler.input_text i = Some msg
                        /\ Handler.input_sessionId i
                           = if truthy (View.sessionId st)
                             then View.sessionId st else None)
         (Handler.sent (Handler.action svc env body))
    /\ (View.sessionId st = None ->
        Forall (fun i => Handler.input_sessionId i = None)
          (Handler.sent (Handler.action svc env body))).
Proof.
  intros st svc env msg body; subst body.
  pose proof (sent_sessionId svc env
                (View.form_body msg (View.sessionId st))) as S.
  rewrite form_body_sessionId in S.
  split; [| split].
  - simpl; destruct (View.sessionId st) as [[|c s]|]; reflexivity.
  - exact S.
  - intro N; eapply Forall_impl; [| exact S].
    intros i [_ E]; now rewrite E, N.
Qed.

Lemma commit_submitted h c st :
  View.submitted (View.commit h c st) = View.submitted st.
Proof.
  unfold View.commit.
  destruct (View.navigation_changed c), (View.data_changed c),
    (View.location_changed c); effect_cases.
Qed.

Lemma form_body_carries msg s :
  s <> [] ->
  Handler.body_sessionId (View.form_body msg (Some s)) = Some s.
Proof. destruct s; [now intros [] | reflexivity]. Qed.

Lemma step_keeps_session s st e :
  s <> [] -> View.sessionId st = Some s -> Router.keeps_session s e ->
  View.sessionId (View.step st e) = Some s
  /\ exists l,
       View.submitted (View.step st e) = View.submitted st ++ l
       /\ Forall (fun b => Handler.body_sessionId b = Some s) l.
Proof.
  intros N S K.
  assert (Z0 : forall x : View.State,
             View.sessionId x = Some s -> View.submitted x = View.submitted st ->
             View.sessionId x = Some s
             /\ exists l, View.submitted x = View.submitted st ++ l
                          /\ Forall (fun b => Handler.body_sessionId b = Some s)
                               l).
  { intros x A B; split; [exact A |].
    exists []; rewrite app_nil_r; split; [exact B | constructor]. }
  assert (P : forall v,
             View.sessionId
               (View.submit (View.form_body v (View.sessionId st))
                  (View.saveUserMessage v st)) = Some s
             /\ exists l,
                  View.submitted
                    (View.submit (View.form_body v (View.sessionId st))
                       (View.saveUserMessage v st))
                  = View.submitted st ++ l
                  /\ Forall (fun b => Handler.body_sessionId b = Some s) l).
  { intro v; split; [exact S |].
    exists [View.form_body v (View.sessionId st)]; split; [reflexivity |].
    rewrite S; constructor; [now apply form_body_carries | constructor]. }
  destruct e as [v m | key shiftKey | | h c]; simpl.
  - destruct (View.inputRef st) as [t|]; [| now apply Z0].
    destruct (handleTextareaChange_frame
                (View.setInput
                   (Some {| View.value := v; View.rows := View.rows t;
                            View.scrollTop := View.scrollTop t;
                            View.focused := View.focused t |}) st) m)
      as (_ & E1 & _ & E2).
    apply Z0; [now rewrite E1 | now rewrite E2].
  - destruct (View.inputRef st) as [t|]; [| now apply Z0].
    unfold View.submitFormOnEnter; destruct (_ && _ && _);
      [apply P | now apply Z0].
  - destruct (View.inputRef st) as [t|]; [apply P | now apply Z0].
  - apply Z0; [| apply commit_submitted].
    rewrite commit_sessionId.
    destruct (sessionEffect_sessionId st (View.data h) (View.sessionId st))
      as [E | (s' & F & N' & _ & E)]; [now rewrite E |].
    rewrite E; destruct (K h c s' eq_refl F) as [-> | ->];
      [now elim N' | reflexivity].
Qed.

Lemma run_keeps_session s es :
  s <> [] -> Forall (Router.keeps_session s) es ->
  forall st, View.sessionId st = Some s ->
    View.sessionId (View.run st es) = Some s
    /\ exists l,
         View.submitted (View.run st es) = View.submitted st ++ l
         /\ Forall (fun b => Handler.body_sessionId b = Some s) l.
Proof.
  intros N F; induction F as [|e r K _ IH]; intros st S; simpl.
  - split; [exact S |]. exists []; rewrite app_nil_r; split; constructor.
  - destruct (step_keeps_session s st e N S K) as (S1 & l1 & E1 & F1).
    destruct (IH _ S1) as (S2 & l2 & E2 & F2).
    split; [exact S2 |].
    exists (l1 ++ l2); split; [now rewrite E2, E1, app_assoc |].
    apply Forall_app; now split.
Qed.

(** X14. Once a successful result carries a non-empty session identifier of
    the service, the view stores it, and as long as no later result carries
    a different non-empty identifier it stays stored: every form the view
    posts from then on has it in its [sessionId] field, and the command the
    handler builds from such a form carries it to the service. *)
Theorem session_continues_after_success :
  forall (svc : Handler.Service) (env : Handler.Env) (body : Handler.FormBody)
         (r : Handler.Response) (s : jsstring) (st : View.State)
         (h : View.Hooks) (c : View.Changed) (es : list View.Event),
    Handler.succeeds svc env body r ->
    Handler.response_sessionId r = Some s -> s <> [] ->
    View.data h = Some (Handler.returned (Handler.action svc env body)) ->
    Forall (fun e => forall h' c' s',
                e = View.rendered h' c' ->
                View.field Handler.sessionId (View.data h') = Some s' ->
                s' = [] \/ s' = s) es ->
    let st1 := View.step st (View.rendered h c) in
    let st2 := View.run st1 es in
    View.sessionId st1 = Some s
    /\ View.sessionId st2 = Some s
    /\ (exists posted,
          View.submitted st2 = View.submitted st1 ++ posted
          /\ Forall
               (fun b =>
                  Handler.body_sessionId b = Some s
                  /\ forall svc' env',
                       Forall (fun i => Handler.input_sessionId i = Some s)
                         (Handler.sent (Handler.action svc' env' b)))
               posted).
Proof.
  intros svc env body r s st h c es S E N D K st1 st2.
  assert (A : View.sessionId st1 = Some s).
  { subst st1; simpl; rewrite commit_sessionId, D.
    apply sessionEffect_adopts; [| exact N].
    simpl; rewrite (action_succeeds svc env body r S); simpl.
    rewrite <- E; apply or_else_truthy, truthy_Some; eauto. }
  destruct (run_keeps_session s es N K st1 A) as (B & l & L & F).
  split; [exact A | split; [exact B |]].
  exists l; split; [exact L |].
  eapply Forall_impl; [| exact F]; intros b Hb; split; [exact Hb |].
  intros svc' env'.
  pose proof (sent_sessionId svc' env' b) as G; rewrite Hb in G.
  eapply Forall_impl; [| exact G]; intros i [_ ->].
  destruct s; [now elim N | reflexivity].
Qed.

Lemma session_continues_after_success_witness :
  let svc := answering_service (Some (js "Six years.")) (Some (js "abc123")) in
  let body := View.form_body (js "Hello?") None in
  let st := View.run View.initial
              [View.typed (js "Hello?") one_line;
               View.keydown View.Enter false;
               View.now_submitting no_hooks] in
  let d := Handler.returned (Handler.action svc no_env body) in
  let later := [View.loaded
                  (Some {| View.state_chatHistory :=
                             Some [View.user_turn (js "Hello?");
                                   View.answer_turn (js "Six years.")];
                           View.state_rest := [] |});
                View.typed (js "Again?") one_line;
                View.keydown View.Enter false] in
  let st2 := View.run (View.step st (Router.completed d)) later in
  View.submitted st = [body]
  /\ View.sessionId st2 = Some (js "abc123")
  /\ View.submitted st2
     = [body; View.form_body (js "Again?") (Some (js "abc123"))].
Proof.
  intros svc body st d later st2; split; [reflexivity |].
  destruct (session_continues_after_success svc no_env body
              {| Handler.output_text := Some (js "Six years.");
                 Handler.response_sessionId := Some (js "abc123") |}
              (js "abc123") st
              {| View.data := Some d; View.location_state := None;
                 View.navigation_state := View.idle |}
              {| View.navigation_changed := true; View.data_changed := true;
                 View.location_changed := true |}
              later
              (conj eq_refl eq_refl) eq_refl ltac:(discriminate) eq_refl)
    as (_ & B & _).
  - subst later; constructor; [| constructor; [| constructor; [| constructor]]];
      intros h' c' s' Q; inversion Q; subst; simpl; discriminate.
  - split; [exact B | reflexivity].
Defined.

(** X15. A failed request leaves the stored session identifier as it was:
    the handler echoes the identifier the view posted, which never differs
    from a non-empty stored one and is the empty string otherwise. *)
Theorem session_survives_failure :
  forall (st : View.State) (svc : Handler.Service) (env : Handler.Env)
         (msg : jsstring) (e : Handler.Thrown) (h : View.Hooks)
         (c : View.Changed),
    let body := View.form_body msg (View.sessionId st) in
    Handler.throws svc env body e ->
    View.data h = Some (Handler.returned (Handler.action svc env body)) ->
    View.sessionId (View.step st (View.rendered h c)) = View.sessionId st.
Proof.
  intros st svc env msg e h c body T D; simpl.
  rewrite commit_sessionId, D, (action_throws svc env body e T).
  unfold View.sessionEffect; subst body; simpl.
  destruct (View.sessionId st) as [[|x s]|] eqn:Q; simpl; try exact Q.
  replace (jsstring_eqb (x :: s) (x :: s)) with true
    by (symmetry; now apply jsstring_eqb_eq).
  exact Q.
Qed.

Lemma session_survives_failure_witness :
  let ok := Handler.returned
              (Handler.action
                 (answering_service (Some (js "Six years."))
                    (Some (js "abc123")))
                 no_env (View.form_body (js "Hello?") None)) in
  let st := View.run View.initial
              [View.typed (js "Hello?") one_line;
               View.keydown View.Enter false;
               View.now_submitting no_hooks;
               View.resolved ok None;
               View.typed (js "Again?") one_line;
               View.keydown View.Enter false;
               View.now_submitting no_hooks] in
  let failed := Handler.returned
                  (Handler.action (failing_service None) no_env
                     (View.form_body (js "Again?") (View.sessionId st))) in
  View.sessionId st = Some (js "abc123")
  /\ View.sessionId (View.step st (View.resolved failed None))
     = Some (js "abc123").
Proof.
  intros ok st failed; split; [reflexivity |].
  exact (session_survives_failure st (failing_service None) no_env
           (js "Again?") {| Handler.thrown_message := None |}
           {| View.data := Some failed; View.location_state := None;
              View.navigation_state := View.idle |}
           {| View.navigation_changed := true; View.data_changed := true;
              View.location_changed := false |}
           (or_intror (conj eq_refl eq_refl)) eq_refl).
Defined.

(** X16. A failed call shows up as exactly one error-flagged assistant turn
    that reads the thrown message, or the fallback text when there is none,
    and writes no navigation state. *)
Theorem failed_call_becomes_error_turn :
  forall (svc : Handler.Service) (env : Handler.Env) (body : Handler.FormBody)
         (e : Handler.Thrown) (st : View.State)
         (loc : option View.LocationState),
    Handler.throws svc env body e ->
    let st' := View.step st
                 (View.resolved
                    (Handler.returned (Handler.action svc env body)) loc) in
    View.chatHistory st'
    = View.chatHistory st
        ++ [View.error_turn
              match Handler.thrown_message e with
              | Some (c :: m) => c :: m
              | _ => Handler.fallback_error
              end]
    /\ View.navigated st' = View.navigated st.
Proof.
  intros svc env body e st loc T st'; subst st'; simpl.
  rewrite commit_chatHistory_same_location, commit_navigated by reflexivity.
  simpl; rewrite (action_throws svc env body e T).
  set (m := match Handler.thrown_message e with
            | Some (c :: m) => c :: m
            | _ => Handler.fallback_error
            end).
  assert (E : View.field Handler.error (Some (Handler.on_throw body e))
              = Some m)
    by (subst m; simpl; destruct (Handler.thrown_message e) as [[|c x]|];
        reflexivity).
  assert (N : m <> [])
    by (subst m; destruct (Handler.thrown_message e) as [[|c x]|];
        discriminate).
  rewrite (dataEffect_error loc (View.chatHistory st) st _ m E N).
  split; reflexivity.
Qed.

Lemma failed_call_becomes_error_turn_witness :
  let st := View.run View.initial
              [View.typed (js "Hello?") one_line;
               View.keydown View.Enter false;
               View.now_submitting no_hooks] in
  View.chatHistory
    (View.step st
       (View.resolved
          (Handler.returned
             (Handler.action (failing_service (Some [])) no_env
                (View.form_body (js "Hello?") None))) None))
  = [View.user_turn (js "Hello?");
     View.error_turn (js "Something went wrong! Please try again.")].
Proof.
  intro st.
  exact (proj1 (failed_call_becomes_error_turn (failing_service (Some []))
                  no_env (View.form_body (js "Hello?") None)
                  {| Handler.thrown_message := Some [] |} st None
                  (or_intror (conj eq_refl eq_refl)))).
Defined.

(** X17. The result of the handler carries a truthy error exactly when the
    external call threw; a result of a call that returned has no error field
    and echoes the posted message. *)
Theorem error_field_iff_call_threw :
  forall (svc : Handler.Service) (env : Handler.Env) (body : Handler.FormBody),
    let r := Handler.returned (Handler.action svc env body) in
    (truthy (Handler.error r) = true
     <-> exists e, Handler.throws svc env body e)
    /\ (Handler.error r = None
        <-> exists x, Handler.succeeds svc env body x)
    /\ Handler.message r = Handler.body_message body.
Proof.
  intros svc env body r; subst r.
  destruct (action_total svc env body) as [[e T] | [x S]].
  - rewrite (action_throws svc env body e T); simpl; repeat split.
    + eauto.
    + intros _; destruct (Handler.thrown_message e) as [[|c m]|];
        reflexivity.
    + destruct (Handler.thrown_message e) as [[|c m]|]; discriminate.
    + intros [x [C S]]; exfalso.
      destruct T as [T | [_ T]]; congruence.
  - rewrite (action_succeeds svc env body x S); simpl; repeat split.
    + discriminate.
    + intros [e [T | [_ T]]]; destruct S as [C S]; congruence.
    + eauto.
Qed.

(** ** What is rendered *)

Lemma render_messages st nav :
  Page.messages (Page.render st nav)
  = match View.chatHistory st with
    | [] => []
    | _ :: _ =>
        map Page.turn_props (View.chatHistory st)
        ++ (if Page.isSubmitting nav then [Page.thinking_props] else [])
    end.
Proof.
  unfold Page.render; simpl; now destruct (View.chatHistory st).
Qed.

Lemma render_messages_nth st nav i t :
  nth_error (View.chatHistory st) i = Some t ->
  nth_error (Page.messages (Page.render st nav)) i = Some (Page.turn_props t).
Proof.
  intro H; rewrite render_messages.
  destruct (View.chatHistory st) as [|t0 l] eqn:C;
    [destruct i; discriminate |].
  rewrite nth_error_app1
    by (rewrite length_map; apply nth_error_Some; congruence).
  now rewrite nth_error_map, H.
Qed.

Lemma isSubmitting_true nav :
  Page.isSubmitting nav = true <-> nav = View.submitting.
Proof. destruct nav; simpl; split; congruence. Qed.

(** X18. The page shows the introduction exactly when it shows no message.
    With a non-empty transcript it shows one message per turn, in order,
    followed by the thinking placeholder exactly while submitting; with an
    empty transcript it shows no placeholder even while submitting. The form
    controls are disabled exactly while submitting. *)
Theorem page_mirrors_transcript :
  forall (st : View.State) (nav : View.NavigationState),
    let v := Page.render st nav in
    let n := List.length (View.chatHistory st) in
    (Page.intro v = true <-> Page.messages v = [])
    /\ (Page.intro v = true <-> View.chatHistory st = [])
    /\ List.length (Page.messages v)
       = (if Nat.eqb n 0 then 0
          else n + (if Page.isSubmitting nav then 1 else 0))%nat
    /\ (forall i t, nth_error (View.chatHistory st) i = Some t ->
                    nth_error (Page.messages v) i = Some (Page.turn_props t))
    /\ (In Page.thinking_props (Page.messages v)
        <-> nav = View.submitting /\ View.chatHistory st <> [])
    /\ (Page.textarea_disabled v = true <-> nav = View.submitting)
    /\ (Page.button_disabled v = true <-> nav = View.submitting).
Proof.
  intros st nav v n; subst v n.
  split; [| split; [| split; [| split; [| split; [| split]]]]];
    try apply isSubmitting_true;
    try (intros i t; apply render_messages_nth);
    rewrite ?render_messages; unfold Page.render; simpl;
    destruct (View.chatHistory st) as [|t0 l] eqn:C; simpl;
    try (split; congruence); try reflexivity.
  - rewrite length_app, length_map; simpl.
    destruct (Page.isSubmitting nav); simpl; lia.
  - split; [tauto | now intros [_ H]].
  - split.
    + intros [H | H]; [discriminate H |].
      split; [| discriminate].
      apply isSubmitting_true.
      apply in_app_or in H; destruct H as [H | H].
      * apply in_map_iff in H; destruct H as (x & H & _); discriminate H.
      * destruct (Page.isSubmitting nav); [reflexivity | now elim H].
    + intros [N _]; right; apply in_or_app; right.
      apply isSubmitting_true in N; rewrite N; now left.
Qed.

Lemma clicks_without_toggle (p : Message.MessageProps) :
  Message.has_toggle
    (match Message.role p with Some r => r | None => View.user end)
    (Message.citations p) = false ->
  Message.citations p = None ->
  forall cs, Message.clicks p cs = Message.mounted.
Proof.
  intros H N cs; unfold Message.clicks.
  induction cs as [|c r IH] using rev_ind; [reflexivity |].
  rewrite fold_left_app; simpl; rewrite IH.
  destruct c; unfold Message.click, Message.shows_toggle,
    Message.shows_citation, Message.Message; rewrite H, N; simpl;
    destruct (Message.is_true (Message.thinking p)); simpl;
    try reflexivity;
    destruct (negb _); simpl; destruct i; reflexivity.
Qed.

(** X19. Every turn of the transcript is shown with its own content, on the
    side of its role and in the error colour exactly when it is flagged, and
    never with a citations button or a citation, whatever is clicked: the
    page passes no citations to its messages. *)
Theorem turns_are_shown_without_citations :
  forall (st : View.State) (nav : View.NavigationState) (i : nat)
         (t : View.ChatHistoryProps) (cs : list Message.Click),
    nth_error (View.chatHistory st) i = Some t ->
    exists p,
      nth_error (Page.messages (Page.render st nav)) i = Some p
      /\ Message.Message p (Message.clicks p cs)
         = {| Message.message_role := View.role t;
              Message.justify_end := Message.is_user (View.role t);
              Message.text_error := View.is_error_turn t;
              Message.body := Message.Response (View.content t) None [] |}.
Proof.
  intros st nav i t cs H; exists (Page.turn_props t); split.
  - now apply render_messages_nth.
  - rewrite clicks_without_toggle;
      [| unfold Message.has_toggle; simpl; now rewrite andb_false_r
       | reflexivity].
    unfold Message.Message, Message.has_toggle; simpl.
    rewrite andb_false_r.
    destruct (Message.is_user (View.role t)); reflexivity.
Qed.

Lemma turns_are_shown_without_citations_witness :
  let failed := Handler.returned
                  (Handler.action (failing_service (Some (js "Access denied")))
                     no_env (View.form_body (js "Hello?") None)) in
  let st := View.run View.initial
              [View.typed (js "Hello?") one_line;
               View.keydown View.Enter false;
               View.now_submitting no_hooks;
               View.resolved failed None] in
  exists p,
    nth_error (Page.messages (Page.render st View.idle)) 1 = Some p
    /\ Message.Message p (Message.clicks p [Message.on_toggle])
       = {| Message.message_role := View.assistant;
            Message.justify_end := false;
            Message.text_error := true;
            Message.body :=
              Message.Response (js "Access denied") None [] |}.
Proof.
  intros failed st.
  exact (turns_are_shown_without_citations st View.idle 1
           (View.error_turn (js "Access denied")) [Message.on_toggle]
           eq_refl).
Defined.

(** ** The [Message] component *)

(** X20. A message of the user, or one without a role, which is shown as
    the user's, never shows a citations button or a citation, whatever
    citations it is given and whatever its state. *)
Theorem user_messages_show_no_citations :
  forall (p : Message.MessageProps) (s : Message.State),
    Message.role p = None \/ Message.role p = Some View.user ->
    Message.message_role (Message.Message p s) = View.user
    /\ Message.justify_end (Message.Message p s) = true
    /\ (Message.body (Message.Message p s) = Message.Bubbles
        \/ Message.body (Message.Message p s)
           = Message.Response (Message.content p) None []).
Proof.
  intros p s R; unfold Message.Message.
  replace (match Message.role p with Some r => r | None => View.user end)
    with View.user by (destruct R as [-> | ->]; reflexivity).
  simpl; repeat split.
  destruct (Message.is_true (Message.thinking p)); auto.
Qed.

Lemma user_messages_show_no_citations_witness :
  let c := {| Message.retrievedReferences :=
                Some [{| Message.reference_text := Some (js "Section 2");
                         Message.reference_uri := Some (js "s3://kb/a.pdf") |}]
           |} in
  let p := {| Message.content := js "Hello?";
              Message.citations := Some [c];
              Message.role := None;
              Message.error := None;
              Message.thinking := None |} in
  Message.body
    (Message.Message p {| Message.isExpanded := true;
                          Message.citation_isExpanded := fun _ => true |})
  = Message.Response (js "Hello?") None [].
Proof.
  intros c p.
  destruct (user_messages_show_no_citations p
              {| Message.isExpanded := true;
                 Message.citation_isExpanded := fun _ => true |}
              (or_introl eq_refl)) as (_ & _ & [H | H]);
    [discriminate H | exact H].
Defined.

Lemma renderCitations_from_nth open cs :
  forall k i c,
    nth_error cs i = Some c ->
    nth_error (Message.renderCitations_from k open cs) i
    = Some (Message.RenderedCitation c (k + i) (open (k + i)%nat)).
Proof.
  induction cs as [|c0 r IH]; intros k i c H; [destruct i; discriminate |].
  destruct i as [|i]; simpl in *.
  - inversion H; subst; now rewrite Nat.add_0_r.
  - rewrite (IH (S k) i c H); now rewrite Nat.add_succ_r.
Qed.

Lemma renderCitations_from_length open cs :
  forall k, List.length (Message.renderCitations_from k open cs)
            = List.length cs.
Proof. induction cs; intro k; simpl; [reflexivity | now rewrite IHcs]. Qed.

(** X21. The citations are rendered one for one and in order; the one at
    position [i] is numbered [i + 1], shows the file and, when expanded, the
    text of its first retrieved reference only, and shows the empty string
    for what that reference lacks. *)
Theorem citations_are_numbered_from_one :
  forall (open : nat -> bool) (cs : list Message.Citation),
    List.length (Message.renderCitations open cs) = List.length cs
    /\ forall i c,
         nth_error cs i = Some c ->
         exists v,
           nth_error (Message.renderCitations open cs) i = Some v
           /\ Message.number v = Z.of_nat i + 1
           /\ Message.file v
              = match Message.retrievedReferences c with
                | Some ({| Message.reference_uri := Some u |} :: _) => u
                | _ => []
                end
           /\ Message.shown_content v
              = if open i
                then Some match Message.retrievedReferences c with
                          | Some ({| Message.reference_text := Some x |} :: _)
                            => x
                          | _ => []
                          end
                else None.
Proof.
  intros open cs; split; [apply renderCitations_from_length |].
  intros i c H; eexists; split.
  - unfold Message.renderCitations.
    apply (renderCitations_from_nth open cs 0 i c H).
  - simpl; repeat split.
    + unfold Message.at0.
      destruct (Message.retrievedReferences c) as [[|[x u] r]|];
        try reflexivity.
      destruct u as [[|? ?]|]; reflexivity.
    + unfold Message.at0.
      destruct (open i); [| reflexivity].
      destruct (Message.retrievedReferences c) as [[|[x u] r]|];
        try reflexivity.
      destruct x as [[|? ?]|]; reflexivity.
Qed.

Lemma click_expandable p s c :
  Message.expandable p s -> Message.expandable p (Message.click p s c).
Proof.
  intro E; destruct c as [|i]; unfold Message.click.
  - destruct (Message.shows_toggle p s) eqn:T; [| exact E].
    intros _; revert T.
    unfold Message.shows_toggle, Message.Message, Message.effective_role; simpl.
    destruct (Message.is_true (Message.thinking p)); [discriminate |].
    destruct (Message.has_toggle _ _); [auto | discriminate].
  - destruct (Message.shows_citation p s i); exact E.
Qed.

Lemma clicks_expandable p cs : Message.expandable p (Message.clicks p cs).
Proof.
  unfold Message.clicks.
  induction cs as [|c r IH] using rev_ind; [discriminate |].
  rewrite fold_left_app; simpl; now apply click_expandable.
Qed.

(** X22. With fixed props and whatever is clicked, a message shows its
    content unaltered, and it shows citations only together with the button
    that hides them, all of them, and only when the first citation has a
    retrieved reference. *)
Theorem citations_shown_only_with_their_button :
  forall (p : Message.MessageProps) (cs : list Message.Click)
         (md : jsstring) (toggle : option jsstring)
         (l : list Message.CitationView),
    Message.body (Message.Message p (Message.clicks p cs))
    = Message.Response md toggle l ->
    md = Message.content p
    /\ (l <> [] ->
        toggle = Some (js "Hide citations")
        /\ exists c r x rest,
             Message.citations p = Some (c :: r)
             /\ Message.retrievedReferences c = Some (x :: rest)
             /\ List.length l = S (List.length r)).
Proof.
  intros p cs md toggle l B.
  pose proof (clicks_expandable p cs) as E.
  revert B E; generalize (Message.clicks p cs); intros s B E.
  unfold Message.expandable, Message.effective_role in E.
  unfold Message.Message in B; simpl in B.
  destruct (Message.is_true (Message.thinking p)); [discriminate |].
  inversion B; subst; clear B; split; [reflexivity |].
  intro N.
  destruct (Message.isExpanded s).
  2:{ exfalso; apply N.
      destruct (negb _); [| reflexivity].
      now destruct (Message.citations p). }
  destruct (E eq_refl) as [H _]; rewrite H; split; [reflexivity |].
  unfold Message.has_toggle in H.
  apply andb_true_iff in H; destruct H as [U H]; rewrite U.
  destruct (Message.citations p) as [[|c r]|]; try discriminate.
  destruct (Message.retrievedReferences c) as [[|x rest]|] eqn:R;
    try discriminate.
  exists c, r, x, rest; repeat split; try assumption.
  unfold Message.renderCitations; now rewrite renderCitations_from_length.
Qed.

Lemma citations_shown_only_with_their_button_witness :
  let c := {| Message.retrievedReferences :=
                Some [{| Message.reference_text := Some (js "Section 2");
                         Message.reference_uri := Some (js "s3://kb/a.pdf") |}]
           |} in
  let p := {| Message.content := js "Six years.";
              Message.citations := Some [c; c];
              Message.role := Some View.assistant;
              Message.error := None;
              Message.thinking := None |} in
  exists l,
    Message.body (Message.Message p (Message.clicks p [Message.on_toggle]))
    = Message.Response (js "Six years.") (Some (js "Hide citations")) l
    /\ List.length l = 2%nat.
Proof.
  intros c p; eexists; split; [reflexivity |].
  destruct (citations_shown_only_with_their_button p [Message.on_toggle]
              _ _ _ eq_refl) as [_ H].
  destruct H as (_ & c' & r & x & rest & C & _ & L); [discriminate |].
  inversion C; subst; exact L.
Defined.

(** ** Navigation state without a transcript, and posted forms *)

(** X23. Navigation state that is present but holds no transcript neither
    clears nor replaces the transcript: the view keeps what it shows. *)
Theorem state_without_transcript_keeps_transcript :
  forall (st : View.State) (h : View.Hooks) (c : View.Changed)
         (s : View.LocationState),
    View.location_state h = Some s ->
    View.state_chatHistory s = None ->
    View.data_changed c = false ->
    View.chatHistory (View.step st (View.rendered h c)) = View.chatHistory st.
Proof.
  intros st h c s L N D; simpl.
  destruct (View.location_changed c) eqn:C.
  - rewrite commit_chatHistory_new_location by assumption.
    now rewrite L, N, D.
  - rewrite commit_chatHistory_same_location by assumption; now rewrite D.
Qed.

Lemma state_without_transcript_keeps_transcript_witness :
  let st := View.run View.initial
              [View.typed (js "Hello?") one_line;
               View.keydown View.Enter false] in
  let s := {| View.state_chatHistory := None;
              View.state_rest := [(js "from", js "link")] |} in
  View.chatHistory
    (View.step st
       (View.rendered
          {| View.data := None; View.location_state := Some s;
             View.navigation_state := View.idle |}
          {| View.navigation_changed := false; View.data_changed := false;
             View.location_changed := true |}))
  = [View.user_turn (js "Hello?")].
Proof.
  intros st s.
  exact (state_without_transcript_keeps_transcript st
           {| View.data := None; View.location_state := Some s;
              View.navigation_state := View.idle |}
           {| View.navigation_changed := false; View.data_changed := false;
              View.location_changed := true |}
           s eq_refl eq_refl eq_refl).
Defined.

Lemma user_contents_app l1 l2 :
  Router.user_contents (l1 ++ l2) = Router.user_contents l1 ++ Router.user_contents l2.
Proof. unfold Router.user_contents; now rewrite filter_app, map_app. Qed.

Lemma posted_messages_step st e :
  (forall h c, e = View.rendered h c -> View.location_changed c = false) ->
  map Handler.body_message (View.submitted st)
  = Router.user_contents (View.chatHistory st) ->
  map Handler.body_message (View.submitted (View.step st e))
  = Router.user_contents (View.chatHistory (View.step st e)).
Proof.
  intros L I; destruct e as [v m | key shiftKey | | h c]; simpl.
  - destruct (View.inputRef st) as [t|]; [| exact I].
    destruct (handleTextareaChange_frame
                (View.setInput
                   (Some {| View.value := v; View.rows := View.rows t;
                            View.scrollTop := View.scrollTop t;
                            View.focused := View.focused t |}) st) m)
      as (E1 & _ & _ & E2).
    rewrite E1, E2; exact I.
  - destruct (View.inputRef st) as [t|]; [| exact I].
    unfold View.submitFormOnEnter; destruct (_ && _ && _); [| exact I].
    simpl; rewrite map_app, user_contents_app, I; reflexivity.
  - destruct (View.inputRef st) as [t|]; [| exact I].
    simpl; rewrite map_app, user_contents_app, I; reflexivity.
  - rewrite commit_submitted, commit_chatHistory_same_location
      by (now apply (L h c)).
    destruct (View.data_changed c); [| exact I].
    destruct (dataEffect_chatHistory (View.data h) (View.location_state h)
                (View.chatHistory st) st) as (l & -> & _ & F).
    rewrite user_contents_app, I.
    replace (Router.user_contents l) with (@nil (option jsstring));
      [now rewrite app_nil_r |].
    clear - F; induction F as [|t l [R _] _ IH]; [reflexivity |].
    unfold Router.user_contents, Router.is_user_turn in *; simpl;
      now rewrite R.
Qed.

(** X24. As long as [location] does not change, the user turns of the
    transcript are, in order, the messages of the forms handed to the
    router: every user turn was posted once, and nothing else was. *)
Theorem user_turns_are_the_posted_messages :
  forall (es : list View.Event),
    Forall (fun e => forall h c, e = View.rendered h c ->
                                 View.location_changed c = false) es ->
    map Handler.body_message (View.submitted (View.run View.initial es))
    = map (fun t => Some (View.content t))
        (filter Router.is_user_turn
           (View.chatHistory (View.run View.initial es))).
Proof.
  intros es F.
  change (map Handler.body_message (View.submitted (View.run View.initial es))
          = Router.user_contents (View.chatHistory (View.run View.initial es))).
  assert (G : forall st,
             map Handler.body_message (View.submitted st)
             = Router.user_contents (View.chatHistory st) ->
             map Handler.body_message (View.submitted (View.run st es))
             = Router.user_contents (View.chatHistory (View.run st es))).
  { induction F as [|e r L _ IH]; intros st I; [exact I |].
    simpl; apply IH; now apply posted_messages_step. }
  now apply G.
Qed.

Lemma user_turns_are_the_posted_messages_witness :
  let failed := Handler.returned
                  (Handler.action (failing_service None) no_env
                     (View.form_body (js "Hello?") None)) in
  let es := [View.typed (js "Hello?") one_line;
             View.keydown View.Enter false;
             View.now_submitting no_hooks;
             View.resolved failed None;
             View.typed (js "ok") one_line;
             View.submit_event] in
  map Handler.body_message (View.submitted (View.run View.initial es))
  = [Some (js "Hello?"); Some (js "ok")].
Proof.
  intros failed es.
  refine (user_turns_are_the_posted_messages es _).
  repeat constructor; intros h c E; inversion E; reflexivity.
Defined.

(** * The view fed by the router *)

(** ** A failed result *)

(** C2. The view pushes the error turn and loses it in the same commit.
    For a handler result whose error is a non-empty string, the effect on
    [data] appends exactly one turn, of the assistant, with the error flag
    set and the error message as content, and writes no navigation state.
    But the result arrives with a new location that has no state, so the
    effect on [location] runs in the same commit and clears the transcript:
    after the commit the transcript is empty, and neither the error turn nor
    the user turn that preceded it is shown. *)
Theorem failed_result_turn_is_cleared :
  forall (d : Handler.ReturnedDataProps) (e : jsstring)
         (h : View.Hooks) (c : View.Changed) (st : View.State),
    Handler.error d = Some e -> e <> [] ->
    View.data h = Some d ->
    View.data_changed c = true ->
    View.location_changed c = true ->
    View.location_state h = None ->
    View.chatHistory
      (View.dataEffect (View.data h) (View.location_state h)
         (View.chatHistory st) st)
    = View.chatHistory st
        ++ [{| View.content := e; View.role := View.assistant;
               View.error := Some true |}]
    /\ View.navigated (View.step st (View.rendered h c)) = View.navigated st
    /\ View.chatHistory (View.step st (View.rendered h c)) = [].
Proof.
  intros d e h c st E N D DC LC LS.
  assert (F : View.field Handler.error (View.data h) = Some e)
    by (rewrite D; exact E).
  split; [| split].
  - now rewrite (dataEffect_error _ _ st _ e F N).
  - simpl; rewrite commit_navigated, DC.
    now rewrite (dataEffect_error _ _ st _ e F N).
  - simpl; rewrite commit_chatHistory_new_location by assumption.
    now rewrite LS.
Qed.

Lemma failed_result_turn_is_cleared_witness :
  let d := Handler.returned
             (Handler.action (failing_service (Some (js "Access denied")))
                no_env (View.form_body (js "Hello?") None)) in
  let st := View.run View.initial
              [View.typed (js "Hello?") one_line;
               View.keydown View.Enter false;
               View.now_submitting no_hooks] in
  View.chatHistory st = [View.user_turn (js "Hello?")]
  /\ View.chatHistory (View.dataEffect (Some d) None (View.chatHistory st) st)
     = [View.user_turn (js "Hello?"); View.error_turn (js "Access denied")]
  /\ View.chatHistory (View.step st (Router.completed d)) = [].
Proof.
  intros d st; split; [reflexivity |].
  destruct (failed_result_turn_is_cleared d (js "Access denied")
              {| View.data := Some d; View.location_state := None;
                 View.navigation_state := View.idle |}
              {| View.navigation_changed := true; View.data_changed := true;
                 View.location_changed := true |}
              st eq_refl ltac:(discriminate) eq_refl eq_refl eq_refl eq_refl)
    as (A & _ & B).
  split; [exact A | exact B].
Defined.

(** ** Navigation state over a run *)




